(** * opsml: type dispatch, formatting, project identifiers and artifact routes

    A shallow embedding of the parts of the opsml sources that the
    specification speaks about, followed by the properties established for
    them.  Python values are modelled as follows: [str] as [string], [dict]
    as [gmap], exceptions as a class name with a message, and a call that may
    raise as a value of [result]. *)

From Stdlib Require Import ZArith NArith Ascii String List Bool Lia.
From stdpp Require Import base gmap strings list fin_maps pretty.

Open Scope string_scope.

(* ===================================================================== *)
(** ** Python runtime notions shared by the embedded modules              *)
(* ===================================================================== *)

Module Py.

(** A raised exception: the name of its class and its message. *)
Record exn : Type := Exn { exn_class : string; exn_msg : string }.

Definition ValueError (msg : string) : exn := Exn "ValueError" msg.
Definition FileNotFoundError (msg : string) : exn := Exn "FileNotFoundError" msg.
Definition AssertionError (msg : string) : exn := Exn "AssertionError" msg.
Definition ValidationError (msg : string) : exn := Exn "ValidationError" msg.

(** Outcome of a call: a returned value or a raised exception. *)
Inductive result (A : Type) : Type :=
| Return (a : A)
| Raise (e : exn).
Arguments Return {A} a.
Arguments Raise {A} e.

Definition bind {A B} (r : result A) (k : A -> result B) : result B :=
  match r with
  | Return a => k a
  | Raise e => Raise e
  end.

(** A class, identified by [__module__] and [__qualname__]. *)
Record class : Type := mkClass { cls_module : string; cls_qualname : string }.

Definition class_eqb (c d : class) : bool :=
  String.eqb (cls_module c) (cls_module d)
  && String.eqb (cls_qualname c) (cls_qualname d).

(** An object as the dispatcher sees it: its class and the remaining
    classes of [type(o).__mro__]. *)
Record object : Type := Object { ob_type : class; ob_bases : list class }.

Definition isinstance (o : object) (c : class) : bool :=
  class_eqb (ob_type o) c || existsb (fun b => class_eqb b c) (ob_bases o).

(** [str(type(o))]: builtins print without their module. *)
Definition str_type (o : object) : string :=
  let k := ob_type o in
  if String.eqb (cls_module k) "builtins"
  then "<class '" +:+ cls_qualname k +:+ "'>"
  else "<class '" +:+ cls_module k +:+ "." +:+ cls_qualname k +:+ "'>".

Definition nl : string := String (ascii_of_nat 10) EmptyString.

Definition dict_ : class := mkClass "builtins" "dict".
Definition str_ : class := mkClass "builtins" "str".
Definition int_ : class := mkClass "builtins" "int".
Definition object_ : class := mkClass "builtins" "object".
Definition np_ndarray : class := mkClass "numpy" "ndarray".
Definition pd_DataFrame : class := mkClass "pandas.core.frame" "DataFrame".
Definition pl_DataFrame : class := mkClass "polars.dataframe.frame" "DataFrame".
Definition pa_Table : class := mkClass "pyarrow.lib" "Table".

End Py.

(* ===================================================================== *)
(** ** Methods of [str] used by the sources                              *)
(* ===================================================================== *)

Module PyStr.

(** Python's character tables on the code points below 256. *)
Definition isspace (c : ascii) : bool :=
  let n := nat_of_ascii c in
  ((9 <=? n) && (n <=? 13) || (28 <=? n) && (n <=? 32)
   || (n =? 133) || (n =? 160))%nat.

Definition isupper (c : ascii) : bool :=
  let n := nat_of_ascii c in
  ((65 <=? n) && (n <=? 90)
   || (192 <=? n) && (n <=? 222) && negb (n =? 215))%nat.

Definition lower_char (c : ascii) : ascii :=
  if isupper c then ascii_of_nat (nat_of_ascii c + 32) else c.

(** A character-wise translation of a string. *)
Fixpoint map_chars (f : ascii -> ascii) (s : string) : string :=
  match s with
  | EmptyString => EmptyString
  | String c s' => String (f c) (map_chars f s')
  end.

Definition lower (s : string) : string := map_chars lower_char s.

Fixpoint lstrip (s : string) : string :=
  match s with
  | EmptyString => EmptyString
  | String c s' => if isspace c then lstrip s' else s
  end.

Fixpoint rstrip (s : string) : string :=
  match s with
  | EmptyString => EmptyString
  | String c s' =>
      match rstrip s' with
      | EmptyString => if isspace c then EmptyString else String c EmptyString
      | r => String c r
      end
  end.

Definition strip (s : string) : string := rstrip (lstrip s).

(** [str.replace(old, new)] for one-character [old] and [new]. *)
Definition replace_char (old new c : ascii) : ascii :=
  if Ascii.eqb c old then new else c.

Definition replace (old new : ascii) (s : string) : string :=
  map_chars (replace_char old new) s.

(** Every character of [s] satisfies [p]. *)
Fixpoint forall_chars (p : ascii -> bool) (s : string) : bool :=
  match s with
  | EmptyString => true
  | String c s' => p c && forall_chars p s'
  end.

(** A string that does not begin with white space. *)
Definition starts_clean (s : string) : Prop :=
  match s with
  | EmptyString => True
  | String c _ => isspace c = false
  end.

End PyStr.

(* ===================================================================== *)
(** ** opsml/registry/data/types.py                                       *)
(* ===================================================================== *)

Module DataTypes.
Import Py.

Definition ImageDataset : class :=
  mkClass "opsml.registry.image.dataset" "ImageDataset".

Definition get_class_name (object_ : object) : string :=
  let klass := ob_type object_ in
  let module := cls_module klass in
  if String.eqb module "builtins"
  then cls_qualname klass
  else module +:+ "." +:+ cls_qualname klass.

Inductive AllowedDataType : Type :=
| PANDAS | PYARROW | POLARS | NUMPY | IMAGE | DICT | SQL | PROFILE
| TRANSFORMER_BATCH | STRING | TORCH_TENSOR | TENSORFLOW_TENSOR.

Definition value (t : AllowedDataType) : string :=
  match t with
  | PANDAS => "pandas.core.frame.DataFrame"
  | PYARROW => "pyarrow.lib.Table"
  | POLARS => "polars.dataframe.frame.DataFrame"
  | NUMPY => "numpy.ndarray"
  | IMAGE => "ImageDataset"
  | DICT => "dict"
  | SQL => "sql"
  | PROFILE => "profile"
  | TRANSFORMER_BATCH => "transformers.tokenization_utils_base.BatchEncoding"
  | STRING => "str"
  | TORCH_TENSOR => "torch.Tensor"
  | TENSORFLOW_TENSOR => "tensorflow.python.framework.ops.EagerTensor"
  end.

Definition unsupported_msg (data : object) : string :=
  "Data must be one of the following types: numpy array, pandas dataframe, "
  +:+ nl +:+
  "        polars dataframe, pyarrow table, or ImageDataset. Received "
  +:+ str_type data +:+ nl +:+ "        ".

Definition check_data_type (data : object) : result string :=
  let class_name := get_class_name data in
  if isinstance data dict_ then Return (value DICT)
  else if isinstance data ImageDataset then Return (value IMAGE)
  else if isinstance data np_ndarray then Return (value NUMPY)
  else if isinstance data pd_DataFrame then Return (value PANDAS)
  else if isinstance data pl_DataFrame then Return (value POLARS)
  else if isinstance data pa_Table then Return (value PYARROW)
  else if isinstance data str_ then Return (value STRING)
  else if String.eqb class_name (value TRANSFORMER_BATCH)
       then Return (value TRANSFORMER_BATCH)
  else if String.eqb class_name (value TORCH_TENSOR)
       then Return (value TORCH_TENSOR)
  else if String.eqb class_name (value TENSORFLOW_TENSOR)
       then Return (value TENSORFLOW_TENSOR)
  else Raise (ValueError (unsupported_msg data)).

(** The classifiers of [check_data_type], in the order of its tests. *)
Definition classifiers : list ((object -> bool) * AllowedDataType) :=
  [ (fun d => isinstance d dict_, DICT);
    (fun d => isinstance d ImageDataset, IMAGE);
    (fun d => isinstance d np_ndarray, NUMPY);
    (fun d => isinstance d pd_DataFrame, PANDAS);
    (fun d => isinstance d pl_DataFrame, POLARS);
    (fun d => isinstance d pa_Table, PYARROW);
    (fun d => isinstance d str_, STRING);
    (fun d => String.eqb (get_class_name d) (value TRANSFORMER_BATCH),
      TRANSFORMER_BATCH);
    (fun d => String.eqb (get_class_name d) (value TORCH_TENSOR),
      TORCH_TENSOR);
    (fun d => String.eqb (get_class_name d) (value TENSORFLOW_TENSOR),
      TENSORFLOW_TENSOR) ].

(** An object no classifier accepts. *)
Definition unmatched (data : object) : Prop :=
  forall c, In c classifiers -> fst c data = false.

(** The tag of the first classifier of [cs] that accepts [data]. *)
Fixpoint first_match (cs : list ((object -> bool) * AllowedDataType))
    (data : object) : option AllowedDataType :=
  match cs with
  | [] => None
  | (p, t) :: cs' => if p data then Some t else first_match cs' data
  end.

Definition dispatch (m : option AllowedDataType) (data : object) : result string :=
  match m with
  | Some t => Return (value t)
  | None => Raise (ValueError (unsupported_msg data))
  end.

(** A message that contains the rendering of the type of [data]. *)
Definition names_type_of (msg : string) (data : object) : Prop :=
  exists pre post, msg = pre +:+ str_type data +:+ post.

End DataTypes.

(* ===================================================================== *)
(** ** Tabular values of the data libraries                               *)
(* ===================================================================== *)

Module Frames.

Inductive scalar : Type :=
| SNull
| SInt (z : Z)
| SStr (s : string).

(** A named, typed column; [col_dtype] is the library's rendering of the
    column type. *)
Record column : Type := Column {
  col_name : string;
  col_dtype : string;
  col_values : list scalar
}.

Definition names (cols : list column) : list string := map col_name cols.
Definition dtypes (cols : list column) : list string := map col_dtype cols.
Definition num_rows (cols : list column) : nat :=
  match cols with
  | [] => 0
  | c :: _ => length (col_values c)
  end.

(** [pandas.DataFrame]: the row index and the data columns. *)
Record PandasDataFrame : Type := PandasDF {
  pd_index : list scalar;
  pd_columns : list column
}.

(** [pyarrow.Table]. *)
Record ArrowTbl : Type := PaTable { pa_columns : list column }.

(** [polars.DataFrame]. *)
Record PolarsDataFrame : Type := PolarsDF { pl_columns : list column }.

(** [numpy.ndarray]: [np_dtype] is [str(data.dtype)]. *)
Record NdArray : Type := NdArr {
  np_dtype : string;
  np_shape : list nat;
  np_values : list scalar
}.

(** [schema.names] and [schema.types] of an arrow table. *)
Definition schema_names (t : ArrowTbl) : list string := names (pa_columns t).
Definition schema_types (t : ArrowTbl) : list string := dtypes (pa_columns t).

(** [polars.DataFrame.schema.items()], with each dtype rendered by [str]. *)
Definition pl_schema_items (d : PolarsDataFrame) : list (string * string) :=
  map (fun c => (col_name c, col_dtype c)) (pl_columns d).

End Frames.

(* ===================================================================== *)
(** ** opsml_data/registry/formatter.py                                   *)
(* ===================================================================== *)

Module Formatter.
Import Py Frames.

(** The values handed to the formatters. *)
Inductive data : Type :=
| DPandas (d : PandasDataFrame)
| DNumpy (a : NdArray)
| DArrow (t : ArrowTbl)
| DOther (o : object).

(** [data.__class__.__name__]. *)
Definition class_name (d : data) : string :=
  match d with
  | DPandas _ => "DataFrame"
  | DNumpy _ => "ndarray"
  | DArrow _ => "Table"
  | DOther o => cls_qualname (ob_type o)
  end.

(** The [ArrowTable] model of opsml_data. *)
Record ArrowTable : Type := mkArrowTable {
  table : data;
  table_type : string;
  storage_uri : option string;
  feature_map : option (gmap string (option string))
}.

Section Convert.
(** [pa.Table.from_pandas(data, preserve_index=...)] of pyarrow, a library
    call: it types every column from the values it holds and returns the
    table it builds, or raises on a column it cannot convert and on data
    that is no frame. *)
Variable from_pandas : data -> bool -> result ArrowTbl.

Definition PandasFormatter_convert (d : data) : result ArrowTable :=
  bind (from_pandas d false) (fun pa_table =>
    Return (mkArrowTable (DArrow pa_table) (class_name d) None None)).

Definition PandasFormatter_validate_data (d : data) : bool :=
  match d with DPandas _ => true | _ => false end.

Definition NumpyFormatter_convert (d : data) : result ArrowTable :=
  Return (mkArrowTable d (class_name d) None None).

Definition NumpyFormatter_validate_data (d : data) : bool :=
  match d with DNumpy _ => true | _ => false end.

Definition ArrowTableFormatter_convert (d : data) : result ArrowTable :=
  Return (mkArrowTable d (class_name d) None None).

Definition ArrowTableFormatter_validate_data (d : data) : bool :=
  match d with DArrow _ => true | _ => false end.

(** [ArrowFormatter.__subclasses__()], in definition order. *)
Definition subclasses : list ((data -> bool) * (data -> result ArrowTable)) :=
  [ (PandasFormatter_validate_data, PandasFormatter_convert);
    (NumpyFormatter_validate_data, NumpyFormatter_convert);
    (ArrowTableFormatter_validate_data, ArrowTableFormatter_convert) ].

Definition convert_data_to_arrow (d : data) : result ArrowTable :=
  match List.find (fun f => fst f d) subclasses with
  | Some converter => snd converter d
  | None => Raise (Exn "StopIteration" "")
  end.
End Convert.

(** The loop [feature_map[feature] = str(type_)] over the zipped schema. *)
Definition fill_schema (names types : list string)
    (m : gmap string (option string)) : gmap string (option string) :=
  fold_left (fun acc ft => <[fst ft := Some (snd ft)]> acc) (combine names types) m.

Definition create_table_schema (d : data) : gmap string (option string) :=
  match d with
  | DArrow t => fill_schema (schema_names t) (schema_types t) ∅
  | DNumpy a => <["numpy_dtype" := Some (np_dtype a)]> ∅
  | _ => <["data_dtype" := None]> ∅
  end.

(** The schema [DataCard._convert_and_save_data] records for [d]:
    [create_table_schema(convert_data_to_arrow(d).table)]. *)
Definition derived_schema (from_pandas : data -> bool -> result ArrowTbl)
    (d : data) : result (gmap string (option string)) :=
  bind (convert_data_to_arrow from_pandas d)
       (fun converted => Return (create_table_schema (table converted))).

End Formatter.

(* ===================================================================== *)
(** ** pathlib and posixpath, as far as the sources use them              *)
(* ===================================================================== *)

Module Pathlib.
Import Py.

(** A pure path: its parts, the last one being [name]. *)
Definition Path : Type := list string.

Definition name (p : Path) : string := List.last p "".

(** Index of the last ['.'] of [s] ([str.rfind]). *)
Fixpoint rfind_dot (s : string) : option nat :=
  match s with
  | EmptyString => None
  | String c s' =>
      match rfind_dot s' with
      | Some i => Some (S i)
      | None => if Ascii.eqb c "." then Some 0 else None
      end
  end.

(** [PurePath.suffix]: the part of the name from its last dot, unless
    that dot starts or ends the name. *)
Definition suffix (p : Path) : string :=
  let n := name p in
  match rfind_dot n with
  | Some i =>
      if (0 <? i)%nat && (i <? String.length n - 1)%nat
      then substring i (String.length n - i) n
      else ""
  | None => ""
  end.

Fixpoint contains_char (c : ascii) (s : string) : bool :=
  match s with
  | EmptyString => false
  | String c' s' => Ascii.eqb c c' || contains_char c s'
  end.

Definition startswith_dot (s : string) : bool :=
  match s with
  | String c _ => Ascii.eqb c "."
  | EmptyString => false
  end.

(** [PurePath.with_suffix]. *)
Definition with_suffix (p : Path) (sfx : string) : result Path :=
  if contains_char "/" sfx
  then Raise (ValueError "Invalid suffix")
  else if (negb (String.eqb sfx "") && negb (startswith_dot sfx))
          || String.eqb sfx "."
  then Raise (ValueError "Invalid suffix")
  else
    let n := name p in
    if String.eqb n ""
    then Raise (ValueError "path has an empty name")
    else
      let old_suffix := suffix p in
      let n' :=
        if String.eqb old_suffix ""
        then n +:+ sfx
        else substring 0 (String.length n - String.length old_suffix) n +:+ sfx in
      Return (removelast p ++ [n'])%list.

Definition endswith_slash (s : string) : bool :=
  match rev (list_ascii_of_string s) with
  | c :: _ => Ascii.eqb c "/"
  | [] => false
  end.

Definition startswith_slash (s : string) : bool :=
  match s with
  | String c _ => Ascii.eqb c "/"
  | EmptyString => false
  end.

(** [os.path.join(a, b)] of posixpath. *)
Definition os_path_join (a b : string) : string :=
  if startswith_slash b then b
  else if String.eqb a "" || endswith_slash a then a +:+ b
  else a +:+ "/" +:+ b.

End Pathlib.

(* ===================================================================== *)
(** ** opsml/registry/data/interfaces/polars_.py                          *)
(* ===================================================================== *)

Module Polars.
Import Py Frames Pathlib.

Record Feature : Type := mkFeature {
  feature_type : string;
  shape : list nat
}.

(** The state of a [PolarsData] interface that the two methods touch. *)
Record PolarsData : Type := mkPolarsData {
  data : option PolarsDataFrame;
  feature_map : gmap string Feature
}.

(** Parquet files on disk: the table each path holds. *)
Abbreviation filesystem := (gmap Path ArrowTbl).

Definition data_type : string := DataTypes.value DataTypes.POLARS.

(** [pq.ParquetDataset(path_or_paths=p).read()]. *)
Definition read_parquet (fs : filesystem) (p : Path) : result ArrowTbl :=
  match fs !! p with
  | Some t => Return t
  | None => Raise (FileNotFoundError (name p))
  end.

Section Interface.
(** [DataFrame.to_arrow] and [pl.from_arrow] of polars. *)
Variable to_arrow : PolarsDataFrame -> ArrowTbl.
Variable from_arrow : ArrowTbl -> PolarsDataFrame.
(** [opsml.registry.data.formatter.check_data_schema]. *)
Variable check_data_schema :
  PolarsDataFrame -> gmap string Feature -> string -> result PolarsDataFrame.
(** [Suffix.PARQUET.value], returned by the [storage_suffix] property. *)
Variable storage_suffix : string.

Definition schema_features (d : PolarsDataFrame) : gmap string Feature :=
  fold_left (fun acc kv => <[fst kv := mkFeature (snd kv) [1%nat]]> acc)
            (pl_schema_items d) ∅.

Definition save_data (self : PolarsData) (fs : filesystem) (path : Path)
    : result (PolarsData * filesystem * Path) :=
  match data self with
  | None => Raise (AssertionError "No data detected in interface")
  | Some d =>
      let self' := mkPolarsData (data self) (schema_features d) in
      bind (with_suffix path storage_suffix) (fun save_path =>
      let fs' := <[path := to_arrow d]> fs in
      Return (self', fs', save_path))
  end.

Definition load_data (self : PolarsData) (fs : filesystem) (path : Path)
    : result PolarsData :=
  bind (with_suffix path storage_suffix) (fun load_path =>
  bind (read_parquet fs load_path) (fun pa_table =>
  bind (check_data_schema (from_arrow pa_table) (feature_map self) data_type)
       (fun d => Return (mkPolarsData (Some d) (feature_map self))))).

(** [save_data(p)] followed by [load_data(p)] on the same interface. *)
Definition save_then_load (self : PolarsData) (fs : filesystem) (p : Path)
    : result PolarsData :=
  bind (save_data self fs p) (fun r =>
    let '(self', fs', _) := r in load_data self' fs' p).
End Interface.

End Polars.

(* ===================================================================== *)
(** ** opsml/projects/base/types.py                                       *)
(* ===================================================================== *)

Module Projects.
Import Py PyStr.

Definition identifier_validator (value : option string) : option string :=
  match value with
  | None => None
  | Some v => Some (replace "_" "-" (lower (strip v)))
  end.

Record ProjectInfo : Type := mkProjectInfo {
  name : string;
  team : string;
  user_email : option string;
  run_id : option string;
  tracking_uri : string
}.

(** Field validation of a required [str] with [min_length=1]. *)
Definition required_str (field : string) (v : option string) : result string :=
  match v with
  | None => Raise (ValidationError (field +:+ ": none is not an allowed value"))
  | Some s =>
      if (String.length s <? 1)%nat
      then Raise (ValidationError (field +:+ ": ensure this value has at least 1 characters"))
      else Return s
  end.

Definition optional_str (field : string) (v : option string) : result (option string) :=
  match v with
  | None => Return None
  | Some s =>
      if (String.length s <? 1)%nat
      then Raise (ValidationError (field +:+ ": ensure this value has at least 1 characters"))
      else Return (Some s)
  end.

(** Construction: the [pre] validator runs on [name] and [team] before
    the field constraints are checked. *)
Definition ProjectInfo_init (name_ team_ user_email_ run_id_ : option string)
    (tracking_uri_ : string) : result ProjectInfo :=
  bind (required_str "name" (identifier_validator name_)) (fun n =>
  bind (required_str "team" (identifier_validator team_)) (fun t =>
  bind (optional_str "user_email" user_email_) (fun e =>
  Return (mkProjectInfo n t e run_id_ tracking_uri_)))).

Definition project_id (self : ProjectInfo) : string :=
  team self +:+ ":" +:+ name self.

Definition project_name (self : ProjectInfo) : string := name self.

Definition plain_char (c : ascii) : bool :=
  negb (isupper c) && negb (Ascii.eqb c "_").

(** No uppercase letter and no underscore occurs in [s]. *)
Definition no_upper_no_underscore (s : string) : bool :=
  forall_chars plain_char s.

(** The value the validator stores for the input [v]. *)
Definition normalized (v : string) : string :=
  replace "_" "-" (lower (strip v)).

End Projects.

(* ===================================================================== *)
(** ** opsml/registry/data/splitter.py (exercised by test_splitter.py)    *)
(* ===================================================================== *)

Module Splitter.
Import Py Frames.

(** Modelled from the spec: the splitter module is not among the sources,
    only its test is.  A split specification is one of three variants,
    column-predicate [{label, column, column_value}], range
    [{label, start, stop}] and explicit-indices [{label, indices}]; the
    fields of the other variants stay unset. *)
Record DataSplit : Type := mkDataSplit {
  label : string;
  split_column_name : option string;
  split_column_value : option scalar;
  split_start : option Z;
  split_stop : option Z;
  split_indices : option (list Z)
}.

Definition column_split (l c : string) (v : scalar) : DataSplit :=
  mkDataSplit l (Some c) (Some v) None None None.
Definition range_split (l : string) (start_ stop_ : Z) : DataSplit :=
  mkDataSplit l None None (Some start_) (Some stop_) None.
Definition indices_split (l : string) (idx : list Z) : DataSplit :=
  mkDataSplit l None None None None (Some idx).

Record DataSplitterBase : Type := mkDataSplitterBase {
  split : DataSplit;
  dependent_vars : list string
}.

(** Modelled from the spec: a property of the splitter returns the field
    of its split when the variant has it and fails with [ValueError]
    otherwise, never with a default. *)
Definition get_field {A} (field : string) (v : option A) : result A :=
  match v with
  | Some a => Return a
  | None => Raise (ValueError (field +:+ " was not provided"))
  end.

Definition column_name (self : DataSplitterBase) : result string :=
  get_field "Column name" (split_column_name (split self)).
Definition column_value (self : DataSplitterBase) : result scalar :=
  get_field "Column value" (split_column_value (split self)).
Definition start (self : DataSplitterBase) : result Z :=
  get_field "Start index" (split_start (split self)).
Definition stop (self : DataSplitterBase) : result Z :=
  get_field "Stop index" (split_stop (split self)).
Definition indices (self : DataSplitterBase) : result (list Z) :=
  get_field "List of indices" (split_indices (split self)).

Definition raises_ValueError {A} (r : result A) : Prop :=
  exists msg, r = Raise (ValueError msg).

End Splitter.

(* ===================================================================== *)
(** ** Storage client: chunked reading                                    *)
(* ===================================================================== *)

Module Storage.

Abbreviation bytes := (list Byte.byte).

(** [file_.read(n)] on the unread rest of a file: the bytes read and the
    rest left. *)
Definition read (rest : bytes) (n : Z) : bytes * bytes :=
  (take (Z.to_nat n) rest, drop (Z.to_nat n) rest).

(** Modelled from the spec: the storage client is not among the sources.
    [iterfile(path, chunk_size)] reads the opened file [chunk_size] bytes
    at a time and yields every chunk read until a read comes back empty.
    [fuel] bounds the number of reads. *)
Fixpoint iterfile_loop (fuel : nat) (rest : bytes) (chunk_size : Z) : list bytes :=
  match fuel with
  | O => []
  | S fuel' =>
      let '(chunk, rest') := read rest chunk_size in
      match chunk with
      | [] => []
      | _ => chunk :: iterfile_loop fuel' rest' chunk_size
      end
  end.

(** Modelled from the spec: one read per byte of the file and a last,
    empty one are enough for any positive [chunk_size]. *)
Definition iterfile (file_ : bytes) (chunk_size : Z) : list bytes :=
  iterfile_loop (S (length file_)) file_ chunk_size.

Definition total_length (chunks : list bytes) : nat :=
  fold_right (fun c n => (length c + n)%nat) 0%nat chunks.

End Storage.

(* ===================================================================== *)
(** ** opsml/app/routes/artifacts_routes.py                               *)
(* ===================================================================== *)

Module Routes.
Import Py PyStr Pathlib.

Definition CHUNK_SIZE : Z := 31457280.

Definition MAX_FILE_SIZE : Z := 1024 * 1024 * 1024 * 50.
Definition MAX_REQUEST_BODY_SIZE : Z := MAX_FILE_SIZE + 1024.

Definition HTTP_413_REQUEST_ENTITY_TOO_LARGE : Z := 413.
Definition HTTP_422_UNPROCESSABLE_ENTITY : Z := 422.
Definition HTTP_500_INTERNAL_SERVER_ERROR : Z := 500.

Record HTTPException : Type := mkHTTPException {
  status_code : Z;
  detail : string
}.

(** What a route hands back: its return value or a raised
    [HTTPException]. *)
Inductive response (A : Type) : Type :=
| Respond (a : A)
| Abort (e : HTTPException).
Arguments Respond {A} a.
Arguments Abort {A} e.

Definition status_of {A} (r : response A) : Z :=
  match r with
  | Respond _ => 200
  | Abort e => status_code e
  end.

Definition is_4xx (code : Z) : bool := (400 <=? code)%Z && (code <=? 499)%Z.
Definition is_5xx (code : Z) : bool := (500 <=? code)%Z && (code <=? 599)%Z.

(** [request.headers.get(key)]: header names compare without case. *)
Definition headers_get (headers : gmap string string) (key : string) : option string :=
  headers !! lower key.

Definition dquote : string := String (ascii_of_nat 34) EmptyString.

(** *** download_model *)

Record DownloadModelRequest : Type := mkDownloadModelRequest {
  req_name : option string;
  req_version : option string;
  req_team : option string;
  req_uid : option string
}.

Record StreamingResponse (chunk : Type) : Type := mkStreamingResponse {
  body_iterator : list chunk;
  response_headers : list (string * string)
}.
Arguments mkStreamingResponse {chunk} _ _.

Section Download.
Variable chunk : Type.
(** [MODEL_FILE] of opsml.app.routes.utils. *)
Variable MODEL_FILE : string.
(** [registry.list_cards(..., as_dataframe=False)] of the model registry. *)
Variable list_cards : DownloadModelRequest -> list (gmap string string).
(** [storage_client.iterfile(file_path, chunk_size)]. *)
Variable iterfile : option string -> Z -> result (list chunk).

Definition download_model (payload : DownloadModelRequest)
    : response (StreamingResponse chunk) :=
  let cards := list_cards payload in
  if (1 <? length cards)%nat
  then Abort (mkHTTPException HTTP_500_INTERNAL_SERVER_ERROR
                "More than one model found")
  else
    match cards with
    | [] => Abort (mkHTTPException HTTP_500_INTERNAL_SERVER_ERROR
                     "No model found")
    | card0 :: _ =>
        let headers :=
          [("Content-Disposition",
            "attachment; filename=" +:+ dquote +:+ MODEL_FILE +:+ dquote)] in
        let record := card0 !! "onnx_model_uri" in
        match iterfile record CHUNK_SIZE with
        | Return it => Respond (mkStreamingResponse it headers)
        | Raise error =>
            Abort (mkHTTPException HTTP_500_INTERNAL_SERVER_ERROR
                     ("Error downloading model. " +:+ exn_msg error))
        end
    end.
End Download.

(** *** upload_file *)

(** What the multipart parser hands to the target registered for the
    ["file"] part while it consumes the body. *)
Inductive part_event (chunk : Type) : Type :=
| PartStart (multipart_filename : option string)
| PartData (data : chunk)
| PartFinish.
Arguments PartStart {chunk} _.
Arguments PartData {chunk} _.
Arguments PartFinish {chunk}.

(** The collaborators of the route: body chunks with their [len], the
    [StreamingFormDataParser] of streaming_form_data, and the storage
    client the file target writes to. *)
Class UploadEnv : Type := {
  chunk : Type;
  len : chunk -> Z;
  parser : Type;
  new_parser : gmap string string -> result parser;
  data_received : parser -> chunk -> list (part_event chunk) * result parser;
  storage : Type;
  on_start : storage -> string -> string -> result storage;
  on_data_received : storage -> chunk -> result storage;
  on_finish : storage -> result storage
}.

(** How [request.stream()] ends. *)
Inductive stream_end : Type := EndOfStream | Disconnected.

Record Request `{UploadEnv} : Type := mkRequest {
  headers : gmap string string;
  stream : list chunk;
  stream_ending : stream_end
}.

(** The exceptions the handler tells apart. *)
Inductive upload_exn : Type :=
| ClientDisconnect
| MaxBodySizeException (body_len : Z)
| FormValidationError
| OtherException (msg : string).

Section Upload.
Context `{E : UploadEnv}.

(** Modelled from the spec: [MaxBodySizeValidator] of
    opsml.app.routes.utils is not among the sources.  It adds up the
    chunk lengths and fails the instant the total is over the bound. *)
Definition MaxBodySizeValidator (max_size body_len : Z) (c : chunk)
    : Z + upload_exn :=
  let body_len' := (body_len + len c)%Z in
  if (max_size <? body_len')%Z
  then inr (MaxBodySizeException body_len')
  else inl body_len'.

(** [MaxSizeValidator] of streaming_form_data. *)
Definition MaxSizeValidator (max_size so_far : Z) (c : chunk)
    : Z + upload_exn :=
  let so_far' := (so_far + len c)%Z in
  if (max_size <? so_far')%Z
  then inr FormValidationError
  else inl so_far'.

(** Modelled from the spec: [ExternalFileTarget] of
    opsml.app.routes.utils is not among the sources.  It is a
    streaming_form_data target that validates every piece of the file
    and passes it on to the storage client under the write path. *)
Record ExternalFileTarget : Type := mkTarget {
  target_filename : string;
  target_write_path : string;
  multipart_filename : option string;
  so_far : Z;
  store : storage
}.

Definition with_store (t : ExternalFileTarget) (r : result storage)
    : ExternalFileTarget * option upload_exn :=
  match r with
  | Return s =>
      (mkTarget (target_filename t) (target_write_path t)
                (multipart_filename t) (so_far t) s, None)
  | Raise e => (t, Some (OtherException (exn_msg e)))
  end.

Definition deliver (t : ExternalFileTarget) (ev : part_event chunk)
    : ExternalFileTarget * option upload_exn :=
  match ev with
  | PartStart fn =>
      let t' := mkTarget (target_filename t) (target_write_path t) fn
                         (so_far t) (store t) in
      with_store t' (on_start (store t) (target_write_path t) (target_filename t))
  | PartData d =>
      match MaxSizeValidator MAX_FILE_SIZE (so_far t) d with
      | inr e => (t, Some e)
      | inl n =>
          let t' := mkTarget (target_filename t) (target_write_path t)
                             (multipart_filename t) n (store t) in
          with_store t' (on_data_received (store t) d)
      end
  | PartFinish => with_store t (on_finish (store t))
  end.

Fixpoint deliver_all (t : ExternalFileTarget) (evs : list (part_event chunk))
    : ExternalFileTarget * option upload_exn :=
  match evs with
  | [] => (t, None)
  | ev :: evs' =>
      match deliver t ev with
      | (t', None) => deliver_all t' evs'
      | failed => failed
      end
  end.

(** The state the loop over [request.stream()] carries. *)
Record upload_state : Type := mkState {
  body_len : Z;
  parser_st : parser;
  file_ : ExternalFileTarget;
  chunks_read : nat
}.

(** One turn of the loop: [body_validator(chunk)] and then
    [parser.data_received(chunk)]. *)
Definition loop_body (st : upload_state) (c : chunk)
    : upload_state * option upload_exn :=
  let read := S (chunks_read st) in
  match MaxBodySizeValidator MAX_REQUEST_BODY_SIZE (body_len st) c with
  | inr e => (mkState (body_len st) (parser_st st) (file_ st) read, Some e)
  | inl n =>
      let '(evs, p) := data_received (parser_st st) c in
      match deliver_all (file_ st) evs with
      | (t, Some e) => (mkState n (parser_st st) t read, Some e)
      | (t, None) =>
          match p with
          | Return p' => (mkState n p' t read, None)
          | Raise e =>
              (mkState n (parser_st st) t read, Some (OtherException (exn_msg e)))
          end
      end
  end.

Fixpoint stream_loop (st : upload_state) (cs : list chunk)
    : upload_state * option upload_exn :=
  match cs with
  | [] => (st, None)
  | c :: cs' =>
      match loop_body st c with
      | (st', None) => stream_loop st' cs'
      | failed => failed
      end
  end.

(** [async for chunk in request.stream()] with the way the stream ends. *)
Definition consume (st : upload_state) (cs : list chunk) (ending : stream_end)
    : upload_state * option upload_exn :=
  match stream_loop st cs with
  | (st', None) =>
      match ending with
      | EndOfStream => (st', None)
      | Disconnected => (st', Some ClientDisconnect)
      end
  | failed => failed
  end.

(** Truth value of [file_.multipart_filename]. *)
Definition truthy (o : option string) : bool :=
  match o with
  | Some s => negb (String.eqb s "")
  | None => false
  end.

Definition body_limit_detail (n : Z) : string :=
  nl +:+ "               Maximum request body size limit ("
  +:+ pretty MAX_REQUEST_BODY_SIZE +:+ "." +:+ nl
  +:+ "               Bytes exceeded (" +:+ pretty n +:+ " bytes read)".

Definition file_limit_detail : string :=
  "Maximum file size limit (" +:+ pretty MAX_FILE_SIZE +:+ " bytes) exceeded".

(** The lines after the [try] statement. *)
Definition finish_upload (write_path filename : string)
    (t : ExternalFileTarget) : response (gmap string string) :=
  if negb (truthy (multipart_filename t))
  then Abort (mkHTTPException HTTP_422_UNPROCESSABLE_ENTITY "File is missing")
  else Respond {[ "storage_uri" := os_path_join write_path filename ]}.

(** The handler, with the number of chunks it took from the stream. *)
Definition upload_run (request : Request) (storage_client : storage)
    : response (gmap string string) * nat :=
  match headers_get (headers request) "Filename" with
  | None =>
      (Abort (mkHTTPException HTTP_422_UNPROCESSABLE_ENTITY
                "Filename header is missing"), 0%nat)
  | Some filename =>
      match headers_get (headers request) "WritePath" with
      | None =>
          (Abort (mkHTTPException HTTP_422_UNPROCESSABLE_ENTITY
                    "No write path provided"), 0%nat)
      | Some write_path =>
          let file0 := mkTarget filename write_path None 0 storage_client in
          match new_parser (headers request) with
          | Raise error =>
              (Abort (mkHTTPException HTTP_500_INTERNAL_SERVER_ERROR
                        ("There was an error uploading the file. "
                         +:+ exn_msg error)), 0%nat)
          | Return parser0 =>
              let '(st, raised) :=
                consume (mkState 0 parser0 file0 0)
                        (stream request) (stream_ending request) in
              (match raised with
               | None | Some ClientDisconnect =>
                   finish_upload write_path filename (file_ st)
               | Some (MaxBodySizeException n) =>
                   Abort (mkHTTPException HTTP_413_REQUEST_ENTITY_TOO_LARGE
                            (body_limit_detail n))
               | Some FormValidationError =>
                   Abort (mkHTTPException HTTP_413_REQUEST_ENTITY_TOO_LARGE
                            file_limit_detail)
               | Some (OtherException msg) =>
                   Abort (mkHTTPException HTTP_500_INTERNAL_SERVER_ERROR
                            ("There was an error uploading the file. " +:+ msg))
               end, chunks_read st)
          end
      end
  end.

Definition upload_file (request : Request) (storage_client : storage)
    : response (gmap string string) :=
  fst (upload_run request storage_client).

(** Bytes of a body and of the file pieces among part events. *)
Definition body_size (cs : list chunk) : Z :=
  fold_right (fun c n => (len c + n)%Z) 0%Z cs.

Definition event_size (ev : part_event chunk) : Z :=
  match ev with
  | PartData d => len d
  | _ => 0%Z
  end.

Definition file_size (evs : list (part_event chunk)) : Z :=
  fold_right (fun ev n => (event_size ev + n)%Z) 0%Z evs.

(** The part events the parser produces over a run of chunks, and the
    parser it has become after them. *)
Fixpoint parse_all (p : parser) (cs : list chunk) : list (part_event chunk) :=
  match cs with
  | [] => []
  | c :: cs' =>
      let '(evs, r) := data_received p c in
      match r with
      | Return p' => (evs ++ parse_all p' cs')%list
      | Raise _ => evs
      end
  end.

Fixpoint parser_after (p : parser) (cs : list chunk) : parser :=
  match cs with
  | [] => p
  | c :: cs' =>
      match snd (data_received p c) with
      | Return p' => parser_after p' cs'
      | Raise _ => p
      end
  end.

(** The [multipart_filename] the target is left with after [evs]. *)
Fixpoint last_filename (evs : list (part_event chunk)) (fn : option string)
    : option string :=
  match evs with
  | [] => fn
  | PartStart fn' :: evs' => last_filename evs' fn'
  | _ :: evs' => last_filename evs' fn
  end.

(** The same request with another end of its stream. *)
Definition with_ending (request : Request) (ending : stream_end) : Request :=
  mkRequest _ (headers request) (stream request) ending.
End Upload.

(** An environment in which lengths are not negative and neither the
    parser nor the storage client raises. *)
Definition uneventful (E : UploadEnv) : Prop :=
  (forall c : chunk, (0 <= len c)%Z) /\
  (forall p c, exists p', snd (data_received p c) = Return p') /\
  (forall s w f, exists s', on_start s w f = Return s') /\
  (forall s c, exists s', on_data_received s c = Return s') /\
  (forall s, exists s', on_finish s = Return s').

End Routes.

(* ===================================================================== *)
(** ** More methods of [str]                                              *)
(* ===================================================================== *)

Module PyStrMore.

(** [s.startswith(prefix)]. *)
Fixpoint startswith (prefix s : string) : bool :=
  match prefix, s with
  | EmptyString, _ => true
  | String a p', String b s' => Ascii.eqb a b && startswith p' s'
  | String _ _, EmptyString => false
  end.

(** [needle in hay]. *)
Fixpoint contains (needle hay : string) : bool :=
  startswith needle hay ||
  match hay with
  | EmptyString => false
  | String _ hay' => contains needle hay'
  end.

(** [s.split(sep)] for a one-character separator. *)
Fixpoint split (sep : ascii) (s : string) : list string :=
  match s with
  | EmptyString => [EmptyString]
  | String c s' =>
      if Ascii.eqb c sep then EmptyString :: split sep s'
      else
        match split sep s' with
        | field :: fields => String c field :: fields
        | [] => [String c EmptyString]
        end
  end.

(** Truth value of an optional string: [None] and the empty string are
    false. *)
Definition truthy (o : option string) : bool :=
  match o with
  | Some s => negb (String.eqb s "")
  | None => false
  end.

End PyStrMore.

(* ===================================================================== *)
(** ** opsml/app/routes: storage settings and registry lookup             *)
(* ===================================================================== *)

Module Settings.
Import Py PyStr PyStrMore.

(** The members of [StorageSystem] the routes name. *)
Inductive StorageSystem : Type := GCS | LOCAL | API.

(** The fields of the process-wide [config] the routes read. *)
Record Config : Type := mkConfig {
  STORAGE_URI : option string;
  is_proxy : bool;
  version : string
}.

(** [StorageSettingsResponse]; [proxy] and [response_version] are [None]
    when the route does not pass the keyword. *)
Record StorageSettingsResponse : Type := mkStorageSettingsResponse {
  storage_type : StorageSystem;
  storage_uri : option string;
  proxy : option bool;
  response_version : option string
}.

Definition uri_contains (needle : string) (uri : option string) : bool :=
  match uri with
  | Some s => contains needle s
  | None => false
  end.

(** [get_storage_settings] of artifacts_routes.py. *)
Definition get_storage_settings (config : Config) : StorageSettingsResponse :=
  let local :=
    mkStorageSettingsResponse LOCAL (STORAGE_URI config)
      (Some (is_proxy config)) None in
  let proxy_test :=
    if is_proxy config
    then mkStorageSettingsResponse API (STORAGE_URI config)
           (Some (is_proxy config)) None
    else local in
  if truthy (STORAGE_URI config)
  then
    if negb (is_proxy config)
    then
      if uri_contains "gs://" (STORAGE_URI config)
      then mkStorageSettingsResponse GCS (STORAGE_URI config) None None
      else proxy_test
    else proxy_test
  else local.

(** [get_storage_settings] of settings.py: the storage type is a variable
    assigned in turn by the two tests. *)
Definition settings_get_storage_settings (config : Config) : StorageSettingsResponse :=
  let storage_type0 := LOCAL in
  let storage_type2 :=
    if truthy (STORAGE_URI config)
    then
      let storage_type1 :=
        if negb (is_proxy config) && uri_contains "gs://" (STORAGE_URI config)
        then GCS else storage_type0 in
      if is_proxy config then API else storage_type1
    else storage_type0 in
  mkStorageSettingsResponse storage_type2 (STORAGE_URI config)
    (Some (is_proxy config)) (Some (version config)).

(** [payload.table_name.split("_")[1].lower()], the first line of the
    routes check_uid, version, list, create and update. *)
Definition table_for_registry (table_name : string) : result string :=
  match split "_" table_name with
  | _ :: field :: _ => Return (lower field)
  | _ => Raise (Exn "IndexError" "list index out of range")
  end.

(** [getattr(request.app.state.registries, table_for_registry)]. *)
Definition get_registry {R : Type} (registries : gmap string R)
    (table_name : string) : result R :=
  bind (table_for_registry table_name) (fun attr =>
    match registries !! attr with
    | Some registry => Return registry
    | None => Raise (Exn "AttributeError" attr)
    end).

End Settings.

(* ===================================================================== *)
(** ** Python values held in records and dictionaries                    *)
(* ===================================================================== *)

Module PyVal.

(** [None], strings, integers, lists and string keyed dictionaries. *)
#[warnings="-register-all"]
Inductive pyval : Type :=
| VNone
| VStr (s : string)
| VInt (z : Z)
| VList (l : list pyval)
| VDict (d : gmap string pyval).

(** [bool(v)]. *)
Definition truth (v : pyval) : bool :=
  match v with
  | VNone => false
  | VStr s => negb (String.eqb s "")
  | VInt z => negb (z =? 0)%Z
  | VList l => match l with [] => false | _ => true end
  | VDict d => negb (Nat.eqb (size d) 0)
  end.

End PyVal.

(* ===================================================================== *)
(** ** opsml_artifacts/registry/cards/record_models.py                    *)
(* ===================================================================== *)

Module RecordModels.
Import Py PyVal.

(** [DataRegistryRecord.convert_to_dict]. *)
Definition convert_to_dict (splits : pyval) : pyval :=
  if truth splits then VDict {[ "splits" := splits ]} else splits.

(** [dict.get(key)], an [AttributeError] on values without that method. *)
Definition get (v : pyval) (key : string) : result pyval :=
  match v with
  | VDict d => Return (default VNone (d !! key))
  | _ => Raise (Exn "AttributeError" "object has no attribute 'get'")
  end.

(** [LoadedDataRecord.get_splits]. *)
Definition get_splits (splits : pyval) : result pyval :=
  if truth splits then get splits "splits" else Return splits.

(** [values[key]]. *)
Definition getitem (values : gmap string pyval) (key : string) : result pyval :=
  match values !! key with
  | Some v => Return v
  | None => Raise (Exn "KeyError" key)
  end.

Section Loading.
(** [load_record_artifact_from_storage(storage_uri, artifact_type)]. *)
Variable load_record_artifact_from_storage : pyval -> pyval -> result pyval.

(** [LoadedDataRecord.load_data]. *)
Definition load_data (values : gmap string pyval) : result pyval :=
  bind (getitem values "data_uri") (fun storage_uri =>
  bind (getitem values "data_type") (fun artifact_type =>
  load_record_artifact_from_storage storage_uri artifact_type)).

(** [LoadedDataRecord.load_drift_report]. *)
Definition load_drift_report (values : gmap string pyval) : result pyval :=
  if truth (default VNone (values !! "drift_uri"))
  then bind (getitem values "drift_uri") (fun storage_uri =>
         load_record_artifact_from_storage storage_uri (VStr "dict"))
  else Return VNone.

(** [LoadedDataRecord.load_attributes], the root validator. *)
Definition load_attributes (values : gmap string pyval)
    : result (gmap string pyval) :=
  bind (getitem values "data_splits") (fun splits =>
  bind (get_splits splits) (fun splits' =>
  let values1 := <["data_splits" := splits']> values in
  bind (load_data values1) (fun data =>
  let values2 := <["data" := data]> values1 in
  bind (load_drift_report values2) (fun drift_report =>
  Return (<["drift_report" := drift_report]> values2))))).
End Loading.

End RecordModels.

(* ===================================================================== *)
(** ** opsml/registry/types/card.py                                       *)
(* ===================================================================== *)

Module CardTypes.
Import Py PyStr.

Inductive RegistryType : Type := DATA | MODEL | RUN | PIPELINE | AUDIT | PROJECT.

Definition value (t : RegistryType) : string :=
  match t with
  | DATA => "data"
  | MODEL => "model"
  | RUN => "run"
  | PIPELINE => "pipeline"
  | AUDIT => "audit"
  | PROJECT => "project"
  end.

(** [RegistryType.from_str]. *)
Definition from_str (name : string) : result RegistryType :=
  let l_name := lower (strip name) in
  if String.eqb l_name "data" then Return DATA
  else if String.eqb l_name "model" then Return MODEL
  else if String.eqb l_name "run" then Return RUN
  else if String.eqb l_name "pipeline" then Return PIPELINE
  else if String.eqb l_name "project" then Return PROJECT
  else if String.eqb l_name "audit" then Return AUDIT
  else Raise (Exn "NotImplementedError" "").

(** [DataCardMetadata.lower_descriptions] on the items of the dictionary
    it is given, in their order. *)
Definition lower_descriptions (feature_descriptions : list (string * string))
    : gmap string string :=
  match feature_descriptions with
  | [] => ∅
  | _ =>
      fold_left (fun feat_dict item => <[lower (fst item) := lower (snd item)]> feat_dict)
                feature_descriptions ∅
  end.

Definition no_upper (s : string) : bool :=
  forall_chars (fun c => negb (isupper c)) s.

End CardTypes.

(* ===================================================================== *)
(** ** opsml/registry/model/interfaces/tf.py                              *)
(* ===================================================================== *)

Module TensorFlow.
Import Py.

Section SampleData.
(** One record of an array, along its first axis. *)
Variable record : Type.

(** The sample data the interface is given: an array or tensor, a list,
    tuple or dictionary of them, or anything else. *)
Inductive sample_data : Type :=
| ArrayData (a : list record)
| ListData (l : list (list record))
| TupleData (l : list (list record))
| DictData (d : gmap string (list record))
| OtherData (o : object).

(** What comes back: the tuple case yields a generator. *)
Inductive sample_out : Type :=
| ArrayOut (a : list record)
| ListOut (l : list (list record))
| GeneratorOut (l : list (list record))
| DictOut (d : gmap string (list record)).

(** [data[0:1]]. *)
Definition first_record (data : list record) : list record := take 1 data.

(** [TensorFlowModel.get_sample_data]. *)
Definition get_sample_data (sample : sample_data) : result sample_out :=
  match sample with
  | ArrayData a => Return (ArrayOut (first_record a))
  | ListData l => Return (ListOut (map first_record l))
  | TupleData l => Return (GeneratorOut (map first_record l))
  | DictData d => Return (DictOut (first_record <$> d))
  | OtherData _ => Raise (ValueError "Provided sample data is not a valid type")
  end.
End SampleData.

End TensorFlow.

(* ===================================================================== *)
(** ** More of pathlib                                                    *)
(* ===================================================================== *)

Module PathlibMore.
Import Pathlib PyStrMore.

(** [Path(s)] for a relative [s]: the parts between slashes, without the
    empty ones and the dots. *)
Definition Path_of_relative (s : string) : Path :=
  List.filter (fun part => negb (String.eqb part "") && negb (String.eqb part "."))
              (split "/" s).

(** [p / name] for a [name] without slashes. *)
Definition joinpath (p : Path) (name : string) : Path := (p ++ [name])%list.

(** [str(p)] of a relative path. *)
Definition as_posix (p : Path) : string :=
  match p with
  | [] => "."
  | _ => String.concat "/" p
  end.

End PathlibMore.

(* ===================================================================== *)
(** ** opsml_artifacts/scripts/load_model_card.py                         *)
(* ===================================================================== *)

Module ModelLoader.
Import Py PyStrMore Pathlib PathlibMore.

Definition BASE_SAVE_PATH : string := "app/onnx_model".
Definition MODEL_FILE : string := "model_def.json".

Record ModelLoaderCli : Type := mkModelLoaderCli {
  storage_type : string;
  versions : list (option Z);
  name : option string;
  team : option string;
  uid : option string
}.

(** What the loader uses of a [ModelApiDef]: its [model_version] as an
    f-string renders it, and its [json()]. *)
Record ModelApiDef : Type := mkModelApiDef {
  model_version : string;
  json : string
}.

(** [str(x)] of an optional string. *)
Definition str_opt (o : option string) : string :=
  match o with
  | Some s => s
  | None => "None"
  end.

(** Files written, by path. *)
Abbreviation files := (gmap Path string).

Section Loader.
(** [registry.load_card(name, team, version)] followed by
    [_get_model_api_def]. *)
Variable load_api_def :
  option string -> option string -> option Z -> result ModelApiDef.

Definition _set_path (self : ModelLoaderCli) (api_def : ModelApiDef) : Path :=
  let path :=
    Path_of_relative (BASE_SAVE_PATH +:+ "/" +:+ str_opt (name self) +:+ "/"
                      +:+ model_version api_def +:+ "/") in
  joinpath path MODEL_FILE.

Definition _save_api_def (self : ModelLoaderCli) (api_def : ModelApiDef)
    (fs : files) : files :=
  <[_set_path self api_def := json api_def]> fs.

Definition load_and_save_model (self : ModelLoaderCli) (version : option Z)
    (fs : files) : result files :=
  bind (load_api_def (name self) (team self) version) (fun api_def =>
    Return (_save_api_def self api_def fs)).

(** The [for] loop over the versions. *)
Fixpoint for_versions (self : ModelLoaderCli) (version_list : list (option Z))
    (fs : files) : result files :=
  match version_list with
  | [] => Return fs
  | version :: rest =>
      bind (load_and_save_model self version fs) (for_versions self rest)
  end.

Definition save_model_api_def_from_versions (self : ModelLoaderCli) (fs : files)
    : result files :=
  match versions self with
  | [] => load_and_save_model self None fs
  | version_list => for_versions self version_list fs
  end.

Definition save_to_local_file (self : ModelLoaderCli) (fs : files) : result files :=
  match uid self with
  | Some _ =>
      bind (load_and_save_model self None fs) (save_model_api_def_from_versions self)
  | None => save_model_api_def_from_versions self fs
  end.

(** [load_model_card_to_file], the command. *)
Definition load_model_card_to_file (name_ team_ : option string)
    (version : list Z) (uid_ : option string) (storage_type_ : string)
    (fs : files) : result files :=
  let invalid :=
    match uid_ with
    | None => negb (forallb truthy [name_; team_])
    | Some _ => false
    end in
  if invalid
  then Raise (ValueError
                ("A uid is required if name and team are not specified"
                 +:+ nl +:+ "           "))
  else
    let versions_ := map Some version in
    save_to_local_file
      (mkModelLoaderCli storage_type_ versions_ name_ team_ uid_) fs.

(** The versions asked of the registry, in the order of the calls. *)
Definition requested_versions (self : ModelLoaderCli) : list (option Z) :=
  (match uid self with Some _ => [None] | None => [] end
   ++ match versions self with [] => [None] | version_list => version_list end)%list.
End Loader.

End ModelLoader.

(* ===================================================================== *)
(** ** opsml/data/interfaces/custom_data/base.py                          *)
(* ===================================================================== *)

Module CustomData.
Import Py Pathlib PathlibMore.

(** The [filepath] argument as given: a string or a path. *)
Inductive path_arg : Type :=
| AsStr (s : string)
| AsPath (p : Path).

(** The arguments of a [FileRecord] that [check_args] reads. *)
Record data_args : Type := mkDataArgs {
  arg_filepath : option path_arg;
  arg_size : option Z
}.

(** Files on disk with their sizes. *)
Abbreviation disk := (gmap Path Z).

Section Records.
(** [Path(s)] of pathlib. *)
Variable Path_of_str : string -> Path.

Definition to_path (a : path_arg) : Path :=
  match a with
  | AsStr s => Path_of_str s
  | AsPath p => p
  end.

Definition size_truthy (s : option Z) : bool :=
  match s with
  | Some z => negb (z =? 0)%Z
  | None => false
  end.

(** [FileRecord.check_args]. *)
Definition check_args (fs : disk) (args : data_args) : result data_args :=
  let filepath_ := option_map to_path (arg_filepath args) in
  match filepath_ with
  | Some p =>
      if size_truthy (arg_size args) then Return args
      else
        match fs !! p with
        | Some st_size => Return (mkDataArgs (arg_filepath args) (Some st_size))
        | None =>
            Raise (AssertionError
                     ("Image file " +:+ as_posix p +:+ " does not exist"))
        end
  | None => Raise (AssertionError "Filepath is required")
  end.
End Records.

Section Splits.
(** The metadata of one split. *)
Variable Metadata : Type.
(** [self._load_metadata_from_file(self.data_dir, split)]. *)
Variable _load_metadata_from_file : option string -> result Metadata.

Abbreviation splits_map := (gmap (option string) Metadata).

(** The [for] loop over the subdirectories. *)
Fixpoint load_each (dirs : list string) (splits : splits_map) : result splits_map :=
  match dirs with
  | [] => Return splits
  | split :: rest =>
      bind (_load_metadata_from_file (Some split)) (fun m =>
        load_each rest (<[Some split := m]> splits))
  end.

(** [Dataset.split_data]; [dirs] is what [check_for_dirs(self.data_dir)]
    returns. *)
Definition split_data (dirs : list string) (splits : splits_map)
    : result splits_map :=
  if negb (Nat.eqb (size splits) 0) then Return splits
  else
    match dirs with
    | [] =>
        bind (_load_metadata_from_file None) (fun m =>
          Return (<[None := m]> splits))
    | _ => load_each dirs splits
    end.
End Splits.

End CustomData.

(* ===================================================================== *)
(** ** opsml_data/registry/data_card.py                                   *)
(* ===================================================================== *)

Module DataCards.
Import Py PyVal Frames Formatter.

(** A value of a split dictionary: an integer array of numpy or any
    other value. *)
Inductive split_value : Type :=
| NdArray (a : list Z)
| Plain (v : pyval).

(** [ndarray.tolist()]. *)
Definition tolist (a : list Z) : split_value := Plain (VList (map VInt a)).

(** The body of the loop of [convert_none] for one split. *)
Definition convert_split (split : gmap string split_value)
    : gmap string split_value :=
  match split !! "indices" with
  | Some (NdArray a) => <["indices" := tolist a]> split
  | _ => split
  end.

(** [ValidCard.convert_none]. *)
Definition convert_none (splits : option (list (gmap string split_value)))
    : list (gmap string split_value) :=
  match splits with
  | None => []
  | Some l => map convert_split l
  end.

(** The attributes of a [DataCard] that registration reads and writes. *)
Record DataCard : Type := mkDataCard {
  data_name : string;
  team : string;
  card_data : data;
  drift_report : option (gmap string string);
  data_uri : option string;
  drift_uri : option string;
  card_feature_map : option (gmap string (option string));
  data_type : option string;
  card_version : option Z;
  card_uid : option string
}.

(** What is handed to storage: a converted table or a drift report. *)
Inductive artifact : Type :=
| TableArtifact (d : data)
| DriftArtifact (r : gmap string string).

Section Registration.
(** [pa.Table.from_pandas] of pyarrow. *)
Variable from_pandas : data -> bool -> result ArrowTbl.
(** [save_record_data_to_storage(data, data_name, version, team,
    blob_path).gcs_uri]. *)
Variable save_record_data_to_storage :
  artifact -> string -> Z -> string -> string -> result string.

(** [DataCard._convert_and_save_data]. *)
Definition _convert_and_save_data (self : DataCard) (blob_path : string)
    (version : Z) : result DataCard :=
  bind (convert_data_to_arrow from_pandas (card_data self)) (fun converted_data =>
  let feature_map_ := create_table_schema (table converted_data) in
  bind (save_record_data_to_storage (TableArtifact (table converted_data))
          (data_name self) version (team self) blob_path)
       (fun gcs_uri =>
  Return (mkDataCard (data_name self) (team self) (card_data self)
            (drift_report self) (Some gcs_uri) (drift_uri self)
            (Some feature_map_) (Some (table_type converted_data))
            (card_version self) (card_uid self)))).

(** [DataCard._save_drift]. *)
Definition _save_drift (self : DataCard) (blob_path : string) (version : Z)
    : result DataCard :=
  match drift_report self with
  | Some report =>
      if negb (Nat.eqb (size report) 0)
      then
        bind (save_record_data_to_storage (DriftArtifact report) "drift_report"
                version (team self) blob_path)
             (fun gcs_uri =>
        Return (mkDataCard (data_name self) (team self) (card_data self)
                  (drift_report self) (data_uri self) (Some gcs_uri)
                  (card_feature_map self) (data_type self)
                  (card_version self) (card_uid self)))
      else Return self
  | None => Return self
  end.

(** [DataCard.create_registry_record]: the attributes the record is
    built from. *)
Definition create_registry_record (self : DataCard) (data_registry uid : string)
    (version : Z) : result DataCard :=
  let self1 := mkDataCard (data_name self) (team self) (card_data self)
                 (drift_report self) (data_uri self) (drift_uri self)
                 (card_feature_map self) (data_type self)
                 (Some version) (Some uid) in
  bind (_convert_and_save_data self1 data_registry version) (fun self2 =>
  _save_drift self2 data_registry version).
End Registration.

End DataCards.

(* ===================================================================== *)
(** ** Sample values used in the statements below                         *)
(* ===================================================================== *)

Module Samples.
Import Py Frames Formatter Routes.

Definition an_int : object := Object int_ [object_].

(** An object whose class derives from both [dict] and [numpy.ndarray]. *)
Definition dict_and_ndarray : object :=
  Object (mkClass "example" "DictArray") [dict_; np_ndarray; object_].

Definition float_array : NdArray :=
  NdArr "float64" [2%nat; 2%nat] [SInt 1; SInt 2; SInt 3; SInt 4].

(** A conversion to arrow for the examples: it takes a frame whose
    columns hold no null, names and types the columns of the table after
    those of the frame, appends the index as a column when asked to keep
    it, and raises on a column with a null and on data that is no frame. *)
Definition has_null (c : column) : bool :=
  existsb (fun v => match v with SNull => true | _ => false end) (col_values c).

Definition sample_from_pandas (d : data) (preserve_index : bool) : result ArrowTbl :=
  match d with
  | DPandas df =>
      if existsb has_null (pd_columns df)
      then Raise (Exn "ArrowInvalid" "Could not convert column")
      else if preserve_index
      then Return (PaTable (pd_columns df
                            ++ [Column "__index_level_0__" "int64" (pd_index df)])%list)
      else Return (PaTable (pd_columns df))
  | _ => Raise (Exn "AttributeError" "object has no attribute columns")
  end.

Definition zeros (n : nat) : Storage.bytes := repeat Byte.x00 n.

Definition any_model : DownloadModelRequest :=
  mkDownloadModelRequest (Some "model") None (Some "team") None.

(** A body chunk known by its size: the multipart preamble that names the
    file, a piece of the file, or the closing boundary. *)
Inductive sized_chunk : Type :=
| Preamble (n : N) (filename : option string)
| FileData (n : N)
| Epilogue (n : N).

Definition sized_len (c : sized_chunk) : Z :=
  match c with
  | Preamble n _ | FileData n | Epilogue n => Z.of_N n
  end.

(** A parser that reads one part per chunk and a storage client that
    counts the bytes written. *)
#[local] Instance sized_env : UploadEnv := {|
  chunk := sized_chunk;
  len := sized_len;
  parser := unit;
  new_parser := fun _ => Return tt;
  data_received := fun _ c =>
    match c with
    | Preamble _ fn => ([PartStart fn], Return tt)
    | FileData _ => ([PartData c], Return tt)
    | Epilogue _ => ([PartFinish], Return tt)
    end;
  storage := Z;
  on_start := fun _ _ _ => Return 0%Z;
  on_data_received := fun s c => Return (s + sized_len c)%Z;
  on_finish := fun s => Return s
|}.

Definition upload_headers : gmap string string :=
  {[ "filename" := "model.onnx"; "writepath" := "models/v1" ]}.

Definition upload_of (file_bytes : N) (ending : stream_end) : @Request sized_env :=
  mkRequest sized_env upload_headers
    [Preamble 200 (Some "model.onnx"); FileData file_bytes; Epilogue 50]
    ending.

End Samples.

(* ===================================================================== *)
(** * Properties                                                          *)
(* ===================================================================== *)

(** ** Strings *)

Lemma append_assoc (a b c : string) : (a +:+ b) +:+ c = a +:+ (b +:+ c).
Proof.
  induction a as [|x a IH]; [reflexivity|].
  change (String x ((a +:+ b) +:+ c) = String x (a +:+ (b +:+ c))).
  by rewrite IH.
Qed.

(** ** The type dispatcher *)

Section Dispatcher.
Import Py DataTypes Samples.

(** The chain of tests of [check_data_type] is a first-match search
    through [classifiers]. *)
Lemma check_data_type_first_match (data : object) :
  check_data_type data = dispatch (first_match classifiers data) data.
Proof.
  unfold check_data_type, classifiers, first_match, dispatch.
  repeat (match goal with |- context [if ?b then _ else _] => destruct b end;
          try reflexivity).
Qed.

Lemma first_match_unmatched cs (data : object) :
  (forall c, In c cs -> fst c data = false) -> first_match cs data = None.
Proof.
  induction cs as [|[p t] cs IH]; intros H; simpl; [reflexivity|].
  pose proof (H (p, t) (or_introl eq_refl)) as Hp. simpl in Hp.
  rewrite Hp. apply IH.
  intros c Hc. apply H. by right.
Qed.

(** The first classifier that accepts decides the tag. *)
Lemma first_match_earliest cs (data : object) i p t :
  cs !! i = Some (p, t) ->
  p data = true ->
  (forall j q u, (j < i)%nat -> cs !! j = Some (q, u) -> q data = false) ->
  first_match cs data = Some t.
Proof.
  revert i. induction cs as [|[q u] cs IH]; intros i Hi Hp Hearlier.
  - discriminate.
  - destruct i as [|i]; simpl in *.
    + injection Hi as -> ->. by rewrite Hp.
    + rewrite (Hearlier 0%nat q u); [|lia|reflexivity].
      apply (IH i); [done..|].
      intros j q' u' Hj Hq. apply (Hearlier (S j) q' u'); [lia|done].
Qed.

Lemma unsupported_msg_names_type (data : object) :
  names_type_of (unsupported_msg data) data.
Proof.
  unfold names_type_of, unsupported_msg.
  exists ("Data must be one of the following types: numpy array, pandas dataframe, "
          +:+ nl +:+
          "        polars dataframe, pyarrow table, or ImageDataset. Received "),
         (nl +:+ "        ").
  by rewrite !append_assoc.
Qed.

Lemma an_int_unmatched : unmatched an_int.
Proof.
  intros c Hc. unfold classifiers in Hc. simpl in Hc.
  repeat (destruct Hc as [<-|Hc]; [reflexivity|]). destruct Hc.
Qed.

(** C2, as stated, fails: an [int] matches no classifier, and what
    [check_data_type] raises for it is not an [UnsupportedTypeError]. *)
Lemma check_data_type_not_UnsupportedTypeError :
  unmatched an_int /\
  ~ (exists msg, check_data_type an_int = Raise (Exn "UnsupportedTypeError" msg)).
Proof.
  split; [apply an_int_unmatched|].
  intros [msg H]. vm_compute in H. discriminate H.
Qed.

(** C2, amended: for every object that no classifier accepts,
    [check_data_type] raises a [ValueError], and the message of that
    error contains the rendering of the received type. *)
Theorem check_data_type_unmatched_raises (data : object) :
  unmatched data ->
  exists msg,
    check_data_type data = Raise (Exn "ValueError" msg) /\
    names_type_of msg data.
Proof.
  intros H. exists (unsupported_msg data). split.
  - rewrite check_data_type_first_match.
    by rewrite (first_match_unmatched classifiers data H).
  - apply unsupported_msg_names_type.
Qed.

Lemma check_data_type_unmatched_raises_witness :
  unmatched an_int /\
  exists msg,
    check_data_type an_int = Raise (Exn "ValueError" msg) /\
    names_type_of msg an_int.
Proof.
  split; [apply an_int_unmatched|].
  apply (check_data_type_unmatched_raises an_int), an_int_unmatched.
Defined.

(** C3: the tests run in the fixed order dict, image dataset, ndarray,
    pandas and polars dataframes, arrow table, string, and then the three
    fallbacks on the class name; the tag returned is the tag of the
    earliest test in that order that the object passes. *)
Theorem check_data_type_priority :
  map snd classifiers =
    [DICT; IMAGE; NUMPY; PANDAS; POLARS; PYARROW; STRING;
     TRANSFORMER_BATCH; TORCH_TENSOR; TENSORFLOW_TENSOR] /\
  forall (data : object) i p t,
    classifiers !! i = Some (p, t) ->
    p data = true ->
    (forall j q u, (j < i)%nat -> classifiers !! j = Some (q, u) -> q data = false) ->
    check_data_type data = Return (value t).
Proof.
  split; [reflexivity|].
  intros data i p t Hi Hp Hearlier.
  rewrite check_data_type_first_match.
  by rewrite (first_match_earliest classifiers data i p t Hi Hp Hearlier).
Qed.

Lemma check_data_type_priority_witness :
  isinstance dict_and_ndarray dict_ = true /\
  isinstance dict_and_ndarray np_ndarray = true /\
  check_data_type dict_and_ndarray = Return "dict".
Proof.
  split; [reflexivity|]. split; [reflexivity|].
  apply (proj2 check_data_type_priority dict_and_ndarray 0%nat
           (fun d => isinstance d dict_) DICT).
  - reflexivity.
  - reflexivity.
  - intros j q u Hj. lia.
Defined.

End Dispatcher.

(** ** Schemas and conversions of the formatter *)

Section FormatterFacts.
Import Py Frames Formatter Samples.

(** C5, as stated, fails: the schema derived for a [float64] array is not
    the map from ["dtype"] to the dtype string. *)
Lemma numpy_schema_key_is_not_dtype :
  derived_schema sample_from_pandas (DNumpy float_array)
  <> Return {[ "dtype" := Some "float64" ]}.
Proof.
  intros H.
  apply (f_equal (fun r : result (gmap string (option string)) =>
                    match r with
                    | Return m => m !! "dtype"
                    | Raise _ => None
                    end)) in H.
  vm_compute in H. discriminate H.
Qed.

(** C5, amended: for every numpy array the derived schema is the
    single-entry map from ["numpy_dtype"] to the array's dtype rendered as
    a string. *)
Theorem numpy_schema (from_pandas : data -> bool -> result ArrowTbl)
    (a : NdArray) :
  derived_schema from_pandas (DNumpy a)
  = Return {[ "numpy_dtype" := Some (np_dtype a) ]}.
Proof. reflexivity. Qed.

(** [PandasFormatter.convert] asks pyarrow for the table of the frame
    without its index and hands that table on, tagged as a [DataFrame];
    an exception of pyarrow is the exception of the conversion. So when
    the table pyarrow builds without the index has the data columns of the
    frame, in their order and with their values, the converted data keeps
    exactly these and leaves the row index out. *)
Lemma PandasFormatter_convert_columns
    (from_pandas : data -> bool -> result ArrowTbl) (df : PandasDataFrame) :
  (forall e, from_pandas (DPandas df) false = Raise e ->
             PandasFormatter_convert from_pandas (DPandas df) = Raise e) /\
  (forall t, from_pandas (DPandas df) false = Return t ->
             PandasFormatter_convert from_pandas (DPandas df)
             = Return (mkArrowTable (DArrow t) "DataFrame" None None)) /\
  ((forall t, from_pandas (DPandas df) false = Return t ->
              schema_names t = names (pd_columns df) /\
              map col_values (pa_columns t) = map col_values (pd_columns df)) ->
   forall r, PandasFormatter_convert from_pandas (DPandas df) = Return r ->
             exists t, r = mkArrowTable (DArrow t) "DataFrame" None None /\
                       schema_names t = names (pd_columns df) /\
                       map col_values (pa_columns t) = map col_values (pd_columns df) /\
                       length (pa_columns t) = length (pd_columns df)).
Proof.
  unfold PandasFormatter_convert.
  destruct (from_pandas (DPandas df) false) as [t|e]; cbn [bind].
  - split; [intros e H; discriminate H|].
    split; [intros t' H; by injection H as <-|].
    intros Hlib r H. injection H as <-. exists t.
    destruct (Hlib t eq_refl) as [Hnames Hvalues].
    repeat split; try assumption.
    apply (f_equal (@length _)) in Hnames. unfold schema_names, names in Hnames.
    by rewrite !length_map in Hnames.
  - split; [intros e' H; by injection H as <-|].
    split; [intros t H; discriminate H|].
    intros _ r H. discriminate H.
Qed.

End FormatterFacts.

(** ** Saving and loading a polars frame *)

Section PolarsFacts.
Import Py Frames Pathlib Polars.

Variable to_arrow : PolarsDataFrame -> ArrowTbl.
Variable from_arrow : ArrowTbl -> PolarsDataFrame.
Variable check_data_schema :
  PolarsDataFrame -> gmap string Feature -> string -> result PolarsDataFrame.

Lemma with_suffix_unsuffixed (c : ascii) (sfx : string) (p : Path) :
  with_suffix ["data"] (String c sfx) = Return p ->
  p = ["data" +:+ String c sfx].
Proof.
  unfold with_suffix.
  destruct (contains_char _ _); [discriminate|].
  destruct (_ || _); [discriminate|].
  simpl. intros H. by injection H as <-.
Qed.

(** C1 at a path without the parquet suffix: [save_data] writes the table
    to the path it is given, [load_data] reads the path with the suffix,
    so loading what was just saved into an empty directory raises, for
    every frame and whatever the suffix is. *)
Theorem polars_save_then_load_unsuffixed
    (d : PolarsDataFrame) (fm : gmap string Feature) :
  (forall (c : ascii) (sfx : string), exists e,
      save_then_load to_arrow from_arrow check_data_schema (String c sfx)
        (mkPolarsData (Some d) fm) ∅ ["data"] = Raise e) /\
  save_then_load to_arrow from_arrow check_data_schema ".parquet"
    (mkPolarsData (Some d) fm) ∅ ["data"]
  = Raise (FileNotFoundError "data.parquet").
Proof.
  split; [|reflexivity].
  intros c sfx. unfold save_then_load, save_data, load_data. simpl.
  destruct (with_suffix ["data"] (String c sfx)) as [p|e] eqn:Hp; simpl.
  - apply with_suffix_unsuffixed in Hp as ->.
    unfold read_parquet. rewrite lookup_insert_ne, lookup_empty.
    + simpl. eauto.
    + intros H. injection H as H. discriminate H.
  - eauto.
Qed.

(** When the path already ends in the suffix, the same two calls restore
    the frame, provided the arrow conversion round-trips and the schema
    check accepts it. *)
Lemma polars_save_then_load_suffixed (sfx : string) (p : Path)
    (d : PolarsDataFrame) (fm : gmap string Feature) (fs : gmap Path ArrowTbl) :
  with_suffix p sfx = Return p ->
  from_arrow (to_arrow d) = d ->
  check_data_schema d (schema_features d) data_type = Return d ->
  save_then_load to_arrow from_arrow check_data_schema sfx
    (mkPolarsData (Some d) fm) fs p
  = Return (mkPolarsData (Some d) (schema_features d)).
Proof.
  intros Hp Hrt Hck. unfold save_then_load, save_data, load_data.
  cbn [data]. rewrite Hp. cbn [bind]. cbv beta iota.
  unfold read_parquet. rewrite lookup_insert_eq. cbn [bind feature_map].
  rewrite Hrt, Hck. reflexivity.
Qed.

End PolarsFacts.

(** ** Project identifiers *)

Section ProjectFacts.
Import Py PyStr Projects.

Ltac by_cases_on_char c :=
  destruct c as [[] [] [] [] [] [] [] []]; vm_compute; reflexivity.

Lemma isspace_lower_char c : isspace (lower_char c) = isspace c.
Proof. by_cases_on_char c. Qed.

Lemma isspace_replace_char c : isspace (replace_char "_" "-" c) = isspace c.
Proof. by_cases_on_char c. Qed.

Lemma normal_char_plain c :
  plain_char (replace_char "_" "-" (lower_char c)) = true.
Proof. by_cases_on_char c. Qed.

Lemma normal_char_idem c :
  replace_char "_" "-" (lower_char (replace_char "_" "-" (lower_char c)))
  = replace_char "_" "-" (lower_char c).
Proof. by_cases_on_char c. Qed.

Lemma map_chars_compose f g s :
  map_chars g (map_chars f s) = map_chars (fun c => g (f c)) s.
Proof. induction s as [|c s IH]; simpl; [reflexivity | by rewrite IH]. Qed.

Lemma map_chars_ext f g s :
  (forall c, f c = g c) -> map_chars f s = map_chars g s.
Proof. intros H. induction s as [|c s IH]; simpl; [reflexivity | by rewrite H, IH]. Qed.

Lemma lstrip_map_chars f s :
  (forall c, isspace (f c) = isspace c) ->
  lstrip (map_chars f s) = map_chars f (lstrip s).
Proof.
  intros H. induction s as [|c s IH]; simpl; [reflexivity|].
  rewrite H. by destruct (isspace c).
Qed.

Lemma rstrip_map_chars f s :
  (forall c, isspace (f c) = isspace c) ->
  rstrip (map_chars f s) = map_chars f (rstrip s).
Proof.
  intros H. induction s as [|c s IH]; simpl; [reflexivity|].
  rewrite IH, H. destruct (rstrip s); simpl; [|reflexivity].
  by destruct (isspace c).
Qed.

Lemma strip_map_chars f s :
  (forall c, isspace (f c) = isspace c) ->
  strip (map_chars f s) = map_chars f (strip s).
Proof.
  intros H. unfold strip. by rewrite lstrip_map_chars, rstrip_map_chars.
Qed.

Lemma lstrip_starts_clean s : starts_clean (lstrip s).
Proof.
  induction s as [|c s IH]; simpl; [exact I|].
  destruct (isspace c) eqn:Hc; [exact IH | exact Hc].
Qed.

Lemma rstrip_starts_clean s : starts_clean s -> starts_clean (rstrip s).
Proof.
  destruct s as [|c s]; simpl; [done|]. intros Hc.
  destruct (rstrip s); [rewrite Hc|]; exact Hc.
Qed.

Lemma lstrip_clean s : starts_clean s -> lstrip s = s.
Proof. destruct s as [|c s]; simpl; [done|]. by intros ->. Qed.

Lemma rstrip_idem s : rstrip (rstrip s) = rstrip s.
Proof.
  induction s as [|c s IH]; simpl; [reflexivity|].
  destruct (rstrip s) as [|c' r] eqn:Hr.
  - destruct (isspace c) eqn:Hc; simpl; [reflexivity | by rewrite Hc].
  - change (rstrip (String c (String c' r))) with
      (match rstrip (String c' r) with
       | EmptyString => if isspace c then EmptyString else String c EmptyString
       | r0 => String c r0
       end).
    by rewrite IH.
Qed.

Lemma strip_idem s : strip (strip s) = strip s.
Proof.
  unfold strip.
  rewrite (lstrip_clean (rstrip (lstrip s))).
  - apply rstrip_idem.
  - apply rstrip_starts_clean, lstrip_starts_clean.
Qed.

Lemma forall_chars_map p f s :
  (forall c, p (f c) = true) -> forall_chars p (map_chars f s) = true.
Proof. intros H. induction s as [|c s IH]; simpl; [reflexivity | by rewrite H, IH]. Qed.

Lemma forall_chars_app p s t :
  forall_chars p (s +:+ t) = forall_chars p s && forall_chars p t.
Proof.
  induction s as [|c s IH]; [reflexivity|].
  change (p c && forall_chars p (s +:+ t)
          = p c && forall_chars p s && forall_chars p t).
  by rewrite IH, andb_assoc.
Qed.

Lemma normalized_plain v : no_upper_no_underscore (normalized v) = true.
Proof.
  unfold no_upper_no_underscore, normalized, replace, lower.
  rewrite map_chars_compose. apply forall_chars_map, normal_char_plain.
Qed.

Lemma normalized_idem v : normalized (normalized v) = normalized v.
Proof.
  unfold normalized, replace, lower.
  rewrite !strip_map_chars
    by (apply isspace_lower_char || apply isspace_replace_char).
  rewrite strip_idem, !map_chars_compose.
  apply map_chars_ext, normal_char_idem.
Qed.

Lemma required_str_inv field v s :
  required_str field v = Return s -> v = Some s /\ s <> "".
Proof.
  destruct v as [x|]; simpl; [|discriminate].
  destruct x; simpl; [discriminate|].
  intros H. injection H as <-. split; [reflexivity | discriminate].
Qed.



(** Construction succeeds exactly when both identifiers are non-empty
    after normalization and the e-mail, if given, is non-empty. *)
Lemma ProjectInfo_init_succeeds
    (name_ team_ : string) (email run : option string) (uri : string) :
  normalized name_ <> "" -> normalized team_ <> "" -> email <> Some "" ->
  ProjectInfo_init (Some name_) (Some team_) email run uri
  = Return (mkProjectInfo (normalized name_) (normalized team_) email run uri).
Proof.
  intros Hn Ht He. unfold ProjectInfo_init. cbn [identifier_validator].
  fold (normalized name_) (normalized team_).
  destruct (normalized name_) as [|c n]; [done|].
  destruct (normalized team_) as [|c' t]; [done|].
  destruct email as [[|c'' e]|]; [done|reflexivity..].
Qed.

End ProjectFacts.

(** ** Properties of the splitter *)

Section SplitterFacts.
Import Py Frames Splitter.

Lemma get_field_unset {A} field : raises_ValueError (@get_field A field None).
Proof. eexists. reflexivity. Qed.

(** C6: on a splitter built from a split of one variant, every property
    that belongs to another variant raises [ValueError]: [column_name],
    [column_value] and [indices] on a range split; [column_name],
    [column_value], [start] and [stop] on an indices split; [start],
    [stop] and [indices] on a column split. *)
Theorem splitter_foreign_property_raises (deps : list string) :
  (forall l a b,
      let s := mkDataSplitterBase (range_split l a b) deps in
      raises_ValueError (column_name s) /\
      raises_ValueError (column_value s) /\
      raises_ValueError (indices s)) /\
  (forall l idx,
      let s := mkDataSplitterBase (indices_split l idx) deps in
      raises_ValueError (column_name s) /\
      raises_ValueError (column_value s) /\
      raises_ValueError (start s) /\
      raises_ValueError (stop s)) /\
  (forall l c v,
      let s := mkDataSplitterBase (column_split l c v) deps in
      raises_ValueError (start s) /\
      raises_ValueError (stop s) /\
      raises_ValueError (indices s)).
Proof.
  repeat split; apply get_field_unset.
Qed.

(** The properties of its own variant are returned. *)
Lemma splitter_own_property_returns (deps : list string) :
  (forall l a b,
      let s := mkDataSplitterBase (range_split l a b) deps in
      start s = Return a /\ stop s = Return b) /\
  (forall l idx,
      indices (mkDataSplitterBase (indices_split l idx) deps) = Return idx) /\
  (forall l c v,
      let s := mkDataSplitterBase (column_split l c v) deps in
      column_name s = Return c /\ column_value s = Return v).
Proof. repeat split. Qed.

End SplitterFacts.

(** ** Chunked reading *)

Section IterfileFacts.
Import Storage Samples.

Lemma iterfile_loop_spec (chunk_size : Z) (fuel : nat) (rest : bytes) :
  (0 < chunk_size)%Z ->
  (length rest < fuel)%nat ->
  concat (iterfile_loop fuel rest chunk_size) = rest /\
  Forall (fun c : bytes => (0 < length c)%nat /\ (Z.of_nat (length c) <= chunk_size)%Z)
         (iterfile_loop fuel rest chunk_size).
Proof.
  intros Hcs. revert rest. induction fuel as [|fuel IH]; intros rest Hfuel; [lia|].
  cbn [iterfile_loop read].
  destruct (take (Z.to_nat chunk_size) rest) as [|b chunk] eqn:Htake.
  - destruct rest as [|b rest]; [by split|].
    destruct (Z.to_nat chunk_size) eqn:Hn; [lia | discriminate].
  - assert (Hlen : length (b :: chunk) = (Z.to_nat chunk_size `min` length rest)%nat)
      by (rewrite <- Htake; apply length_take).
    destruct (IH (drop (Z.to_nat chunk_size) rest)) as [Hcat Hall].
    { rewrite length_drop. simpl in Hlen. lia. }
    split.
    + cbn [concat]. rewrite Hcat, <- Htake. apply take_drop.
    + constructor; [|exact Hall]. rewrite Hlen. simpl in Hlen. lia.
Qed.

(** [k] full chunks followed by a shorter or equal last one. *)
Lemma iterfile_loop_count (n k r fuel : nat) (rest : bytes) :
  (0 < r <= n)%nat ->
  length rest = (k * n + r)%nat ->
  (k + 2 <= fuel)%nat ->
  length (iterfile_loop fuel rest (Z.of_nat n)) = S k /\
  length (List.last (iterfile_loop fuel rest (Z.of_nat n)) []) = r.
Proof.
  intros Hr. revert fuel rest.
  induction k as [|k IH]; intros fuel rest Hlen Hfuel.
  - destruct fuel as [|[|fuel]]; [lia..|].
    cbn [iterfile_loop read]. rewrite Nat2Z.id.
    rewrite take_ge, drop_ge by lia.
    destruct rest as [|b rest]; [simpl in Hlen; lia|].
    destruct n; [lia|]. simpl. split; [reflexivity | simpl in Hlen; lia].
  - destruct fuel as [|fuel]; [lia|].
    cbn [iterfile_loop read]. rewrite Nat2Z.id.
    destruct (take n rest) as [|b chunk] eqn:Htake.
    + apply (f_equal length) in Htake. rewrite length_take in Htake.
      simpl in Htake. nia.
    + destruct (IH fuel (drop n rest)) as [Hcount Hlast].
      { rewrite length_drop. nia. }
      { lia. }
      split.
      * cbn [length]. by rewrite Hcount.
      * destruct (iterfile_loop fuel (drop n rest) (Z.of_nat n)) eqn:Hloop;
          [discriminate Hcount | exact Hlast].
Qed.

Lemma total_length_concat (chunks : list bytes) :
  total_length chunks = length (concat chunks).
Proof.
  induction chunks as [|c cs IH]; [reflexivity|].
  cbn [concat]. rewrite length_app, <- IH. reflexivity.
Qed.


(** C8, as stated, fails for a chunk size below 7: a file of
    [5 * 3 + 7] bytes read 3 bytes at a time comes in 8 chunks, the last
    of length 1. *)
Lemma iterfile_small_chunk_size :
  (0 < 3)%Z /\
  length (zeros 22) = (5 * 3 + 7)%nat /\
  ~ (length (iterfile (zeros 22) 3) = 6%nat /\
     length (List.last (iterfile (zeros 22) 3) []) = 7%nat) /\
  length (iterfile (zeros 22) 3) = 8%nat /\
  length (List.last (iterfile (zeros 22) 3) []) = 1%nat.
Proof.
  split; [lia|]. split; [reflexivity|]. split; [|split; reflexivity].
  intros [H _]. vm_compute in H. discriminate H.
Qed.

(** C8, amended: for every file and every positive [chunk_size],
    [iterfile] yields finitely many non-empty chunks, each of at most
    [chunk_size] bytes, which put together are the file, so that their
    total length is the file size; and when [chunk_size] is at least 7, a
    file of [5 * chunk_size + 7] bytes comes in exactly 6 chunks, the last
    of length 7. *)
Theorem iterfile_chunks (file_ : bytes) (chunk_size : Z) :
  (0 < chunk_size)%Z ->
  concat (iterfile file_ chunk_size) = file_ /\
  total_length (iterfile file_ chunk_size) = length file_ /\
  Forall (fun c : bytes => (0 < length c)%nat /\ (Z.of_nat (length c) <= chunk_size)%Z)
         (iterfile file_ chunk_size) /\
  ((7 <= chunk_size)%Z ->
   Z.of_nat (length file_) = (5 * chunk_size + 7)%Z ->
   length (iterfile file_ chunk_size) = 6%nat /\
   length (List.last (iterfile file_ chunk_size) []) = 7%nat).
Proof.
  intros Hcs. unfold iterfile.
  destruct (iterfile_loop_spec chunk_size (S (length file_)) file_ Hcs)
    as [Hcat Hall]; [lia|].
  split; [exact Hcat|]. split; [|split; [exact Hall|]].
  - by rewrite total_length_concat, Hcat.
  - intros H7 Hlen.
    rewrite <- (Z2Nat.id chunk_size) by lia.
    apply (iterfile_loop_count (Z.to_nat chunk_size) 5 7); lia.
Qed.

Lemma iterfile_chunks_witness :
  (0 < 8)%Z /\
  length (iterfile (zeros 47) 8) = 6%nat /\
  length (List.last (iterfile (zeros 47) 8) []) = 7%nat /\
  total_length (iterfile (zeros 47) 8) = 47%nat.
Proof.
  destruct (iterfile_chunks (zeros 47) 8 ltac:(lia)) as (_ & Htotal & _ & Hsix).
  destruct (Hsix ltac:(lia) ltac:(reflexivity)) as [H6 H7].
  split; [lia|]. split; [exact H6|]. split; [exact H7 | exact Htotal].
Defined.

End IterfileFacts.

(** ** The download route *)

Section DownloadFacts.
Import Py Routes Samples.

Variable chunk : Type.
Variable MODEL_FILE : string.
Variable iterfile : option string -> Z -> result (list chunk).

(** Every error answer of [download_model] carries status 500. *)
Lemma download_model_errors_are_500
    (list_cards : DownloadModelRequest -> list (gmap string string))
    (payload : DownloadModelRequest) (e : HTTPException) :
  download_model chunk MODEL_FILE list_cards iterfile payload = Abort e ->
  status_code e = 500%Z.
Proof.
  unfold download_model.
  destruct (1 <? length (list_cards payload))%nat;
    [intros H; by injection H as <-|].
  destruct (list_cards payload) as [|card0 cards];
    [intros H; by injection H as <-|].
  destruct (iterfile _ _); [discriminate|].
  intros H. by injection H as <-.
Qed.


End DownloadFacts.



(** ** The upload route *)

Section UploadFacts.
Import Py PyStr Pathlib Routes.
Context `{E : UploadEnv}.

Lemma stream_loop_app (st : upload_state) (pre rest : list chunk) :
  stream_loop st (pre ++ rest)%list =
    match stream_loop st pre with
    | (st', None) => stream_loop st' rest
    | failed => failed
    end.
Proof.
  revert st. induction pre as [|c pre IH]; intros st; [reflexivity|].
  cbn [app stream_loop].
  destruct (loop_body st c) as [st' [e|]]; [reflexivity | apply IH].
Qed.

Lemma body_size_app (pre rest : list chunk) :
  body_size (pre ++ rest)%list = (body_size pre + body_size rest)%Z.
Proof.
  induction pre as [|c pre IH]; [reflexivity|].
  cbn [app body_size fold_right] in *. fold (body_size (pre ++ rest)%list).
  fold (body_size pre). lia.
Qed.

Lemma file_size_app (a b : list (part_event chunk)) :
  file_size (a ++ b)%list = (file_size a + file_size b)%Z.
Proof.
  induction a as [|ev a IH]; [reflexivity|].
  cbn [app file_size fold_right] in *. fold (file_size (a ++ b)%list).
  fold (file_size a). lia.
Qed.

Lemma last_filename_app (a b : list (part_event chunk)) (fn : option string) :
  last_filename (a ++ b)%list fn = last_filename b (last_filename a fn).
Proof.
  revert fn. induction a as [|ev a IH]; intros fn; [reflexivity|].
  destruct ev; cbn [app last_filename]; apply IH.
Qed.

(** A disconnect changes nothing in what the handler answers: the answer
    is the one given when the stream ends after the same chunks. *)
Lemma upload_run_ending (request : Request) (store : storage) (e e' : stream_end) :
  upload_run (with_ending request e) store
  = upload_run (with_ending request e') store.
Proof.
  unfold upload_run, consume. cbn [with_ending headers stream stream_ending].
  destruct (headers_get (headers request) "Filename"); [|reflexivity].
  destruct (headers_get (headers request) "WritePath"); [|reflexivity].
  destruct (new_parser (headers request)); [|reflexivity].
  destruct (stream_loop _ _) as [st' [x|]]; [reflexivity|].
  by destruct e, e'.
Qed.

(** When nothing is raised before the stream ends, the answer depends
    only on whether the file part was seen. *)
Lemma upload_run_completed (request : Request) (store : storage)
    (filename write_path : string) (p0 : parser) (st : upload_state) :
  headers_get (headers request) "Filename" = Some filename ->
  headers_get (headers request) "WritePath" = Some write_path ->
  new_parser (headers request) = Return p0 ->
  stream_loop (mkState 0 p0 (mkTarget filename write_path None 0 store) 0)
              (stream request) = (st, None) ->
  upload_run request store
  = (finish_upload write_path filename (file_ st), chunks_read st).
Proof.
  intros Hf Hw Hp Hloop. unfold upload_run, consume.
  rewrite Hf, Hw, Hp, Hloop. by destruct (stream_ending request).
Qed.

Section Uneventful.
Hypothesis Hquiet : uneventful E.

Lemma len_nonneg (c : chunk) : (0 <= len c)%Z.
Proof. apply Hquiet. Qed.

Lemma body_size_nonneg (cs : list chunk) : (0 <= body_size cs)%Z.
Proof.
  induction cs as [|c cs IH]; [reflexivity|].
  cbn [body_size fold_right]. fold (body_size cs).
  pose proof (len_nonneg c). lia.
Qed.

Lemma file_size_nonneg (evs : list (part_event chunk)) : (0 <= file_size evs)%Z.
Proof.
  induction evs as [|ev evs IH]; [reflexivity|].
  cbn [file_size fold_right]. fold (file_size evs).
  destruct ev; cbn [event_size]; try lia.
  pose proof (len_nonneg data). lia.
Qed.

Lemma parse_all_app (p : parser) (pre rest : list chunk) :
  parse_all p (pre ++ rest)%list
  = (parse_all p pre ++ parse_all (parser_after p pre) rest)%list.
Proof.
  revert p. induction pre as [|c pre IH]; intros p; [reflexivity|].
  cbn [app parse_all parser_after].
  destruct Hquiet as (_ & Hparser & _). destruct (Hparser p c) as [p' Hp'].
  destruct (data_received p c) as [evs r]. cbn [snd] in *. subst r.
  by rewrite IH, app_assoc.
Qed.

(** Delivering part events whose file pieces stay within the file
    bound raises nothing. *)
Lemma deliver_all_within (evs : list (part_event chunk)) (t : ExternalFileTarget) :
  (so_far t + file_size evs <= MAX_FILE_SIZE)%Z ->
  exists t',
    deliver_all t evs = (t', None) /\
    so_far t' = (so_far t + file_size evs)%Z /\
    multipart_filename t' = last_filename evs (multipart_filename t).
Proof.
  destruct Hquiet as (_ & _ & Hstart & Hdata & Hfinish).
  revert t. induction evs as [|ev evs IH]; intros t Hle.
  { exists t. cbn. repeat split. lia. }
  cbn [file_size fold_right] in Hle. fold (file_size evs) in Hle.
  pose proof (file_size_nonneg evs) as Hevs.
  cbn [deliver_all file_size fold_right]. fold (file_size evs).
  destruct ev as [fn|d|]; cbn [deliver event_size last_filename] in *.
  - destruct (Hstart (store t) (target_write_path t) (target_filename t))
      as [s' ->]. cbn [with_store].
    edestruct IH as (t' & H1 & H2 & H3); [|exists t'; rewrite H1; split; [done|]].
    + cbn [so_far]. lia.
    + cbn [so_far multipart_filename] in *. split; [lia | done].
  - unfold MaxSizeValidator.
    destruct (Z.ltb_spec MAX_FILE_SIZE (so_far t + len d)); [lia|].
    destruct (Hdata (store t) d) as [s' ->]. cbn [with_store].
    edestruct IH as (t' & H1 & H2 & H3); [|exists t'; rewrite H1; split; [done|]].
    + cbn [so_far]. lia.
    + cbn [so_far multipart_filename] in *. split; [lia | done].
  - destruct (Hfinish (store t)) as [s' ->]. cbn [with_store].
    edestruct IH as (t' & H1 & H2 & H3); [|exists t'; rewrite H1; split; [done|]].
    + cbn [so_far]. lia.
    + cbn [so_far multipart_filename] in *. split; [lia | done].
Qed.

(** Delivering part events that take the file over its bound raises
    the validation error. *)
Lemma deliver_all_beyond (evs : list (part_event chunk)) (t : ExternalFileTarget) :
  (so_far t <= MAX_FILE_SIZE)%Z ->
  (MAX_FILE_SIZE < so_far t + file_size evs)%Z ->
  exists t', deliver_all t evs = (t', Some FormValidationError).
Proof.
  destruct Hquiet as (_ & _ & Hstart & Hdata & Hfinish).
  revert t. induction evs as [|ev evs IH]; intros t Hle Hlt.
  { cbn in Hlt. lia. }
  cbn [file_size fold_right] in Hlt. fold (file_size evs) in Hlt.
  cbn [deliver_all].
  destruct ev as [fn|d|]; cbn [deliver event_size] in *.
  - destruct (Hstart (store t) (target_write_path t) (target_filename t))
      as [s' ->]. cbn [with_store]. apply IH; cbn [so_far]; lia.
  - unfold MaxSizeValidator.
    destruct (Z.ltb_spec MAX_FILE_SIZE (so_far t + len d)); [eauto|].
    destruct (Hdata (store t) d) as [s' ->]. cbn [with_store].
    apply IH; cbn [so_far]; lia.
  - destruct (Hfinish (store t)) as [s' ->]. cbn [with_store].
    apply IH; cbn [so_far]; lia.
Qed.

(** The loop runs through chunks that stay within both bounds. *)
Lemma stream_loop_within (cs : list chunk) (st : upload_state) :
  (body_len st + body_size cs <= MAX_REQUEST_BODY_SIZE)%Z ->
  (so_far (file_ st) + file_size (parse_all (parser_st st) cs)
   <= MAX_FILE_SIZE)%Z ->
  exists st',
    stream_loop st cs = (st', None) /\
    body_len st' = (body_len st + body_size cs)%Z /\
    so_far (file_ st')
    = (so_far (file_ st) + file_size (parse_all (parser_st st) cs))%Z /\
    multipart_filename (file_ st')
    = last_filename (parse_all (parser_st st) cs)
                    (multipart_filename (file_ st)) /\
    chunks_read st' = (chunks_read st + length cs)%nat /\
    parser_st st' = parser_after (parser_st st) cs.
Proof.
  revert st. induction cs as [|c cs IH]; intros st Hbody Hfile.
  { exists st. cbn. repeat split; lia. }
  cbn [body_size fold_right] in Hbody. fold (body_size cs) in Hbody.
  pose proof (body_size_nonneg cs) as Hcs.
  pose proof (len_nonneg c) as Hc.
  cbn [stream_loop parse_all parser_after body_size fold_right length] in *.
  fold (body_size cs).
  unfold loop_body, MaxBodySizeValidator.
  destruct (Z.ltb_spec MAX_REQUEST_BODY_SIZE (body_len st + len c)); [lia|].
  destruct Hquiet as (_ & Hparser & _).
  destruct (Hparser (parser_st st) c) as [p' Hp'].
  destruct (data_received (parser_st st) c) as [evs r]. cbn [snd] in *. subst r.
  rewrite file_size_app in Hfile.
  pose proof (file_size_nonneg (parse_all p' cs)) as Hrest.
  destruct (deliver_all_within evs (file_ st)) as (t & -> & Ht1 & Ht2); [lia|].
  edestruct (IH (mkState (body_len st + len c) p' t (S (chunks_read st))))
    as (st' & H1 & H2 & H3 & H4 & H5 & H6).
  { cbn [body_len]. lia. }
  { cbn [file_ parser_st]. lia. }
  exists st'. rewrite H1. cbn [body_len file_ parser_st chunks_read] in *.
  rewrite file_size_app, last_filename_app.
  repeat split; try done; try lia.
  by rewrite H4, Ht2.
Qed.

(** One turn of the loop at a chunk that crosses a bound raises one of
    the two size errors. *)
Lemma loop_body_crossing (st : upload_state) (c : chunk) :
  (so_far (file_ st) <= MAX_FILE_SIZE)%Z ->
  (MAX_REQUEST_BODY_SIZE < body_len st + len c)%Z \/
  (MAX_FILE_SIZE
   < so_far (file_ st) + file_size (fst (data_received (parser_st st) c)))%Z ->
  exists st' e,
    loop_body st c = (st', Some e) /\
    chunks_read st' = S (chunks_read st) /\
    (e = MaxBodySizeException (body_len st + len c) \/ e = FormValidationError).
Proof.
  intros Hle Hcross. unfold loop_body, MaxBodySizeValidator.
  destruct (Z.ltb_spec MAX_REQUEST_BODY_SIZE (body_len st + len c)) as [Hb|Hb].
  { eexists _, _. split; [reflexivity|]. split; [reflexivity | by left]. }
  destruct Hcross as [Hcross|Hcross]; [lia|].
  destruct (data_received (parser_st st) c) as [evs r]. cbn [fst] in Hcross.
  destruct (deliver_all_beyond evs (file_ st) Hle Hcross) as [t ->].
  eexists _, _. split; [reflexivity|]. split; [reflexivity | by right].
Qed.
End Uneventful.

End UploadFacts.

Section UploadTheorems.
Import Py PyStr Pathlib Routes.

Lemma upload_missing_header `{E : UploadEnv} (request : Request) (store : storage) :
  headers_get (headers request) "Filename" = None \/
  headers_get (headers request) "WritePath" = None ->
  exists d, upload_run request store = (Abort (mkHTTPException 422 d), 0%nat).
Proof.
  intros H. unfold upload_run.
  destruct (headers_get (headers request) "Filename"); [|eauto].
  destruct H as [H| ->]; [discriminate | eauto].
Qed.

Lemma upload_within_limits `{E : UploadEnv} (request : Request) (store : storage)
    (filename write_path : string) (p0 : parser) :
  uneventful E ->
  headers_get (headers request) "Filename" = Some filename ->
  headers_get (headers request) "WritePath" = Some write_path ->
  new_parser (headers request) = Return p0 ->
  (body_size (stream request) <= MAX_REQUEST_BODY_SIZE)%Z ->
  (file_size (parse_all p0 (stream request)) <= MAX_FILE_SIZE)%Z ->
  truthy (last_filename (parse_all p0 (stream request)) None) = true ->
  upload_run request store
  = (Respond {[ "storage_uri" := os_path_join write_path filename ]},
     length (stream request)).
Proof.
  intros Hquiet Hf Hw Hp Hbody Hfile Hname.
  destruct (stream_loop_within Hquiet (stream request)
              (mkState 0 p0 (mkTarget filename write_path None 0 store) 0))
    as (st & Hloop & _ & _ & Hfn & Hread & _);
    [cbn [body_len]; lia | cbn [file_ so_far parser_st]; lia |].
  rewrite (upload_run_completed request store filename write_path p0 st Hf Hw Hp Hloop).
  cbn [file_ parser_st multipart_filename chunks_read] in Hfn, Hread.
  unfold finish_upload. by rewrite Hfn, Hname, Hread.
Qed.

Lemma upload_crossing `{E : UploadEnv} (request : Request) (store : storage)
    (filename write_path : string) (p0 : parser)
    (pre : list chunk) (c : chunk) (rest : list chunk) :
  uneventful E ->
  headers_get (headers request) "Filename" = Some filename ->
  headers_get (headers request) "WritePath" = Some write_path ->
  new_parser (headers request) = Return p0 ->
  stream request = (pre ++ c :: rest)%list ->
  (body_size pre <= MAX_REQUEST_BODY_SIZE)%Z ->
  (file_size (parse_all p0 pre) <= MAX_FILE_SIZE)%Z ->
  (MAX_REQUEST_BODY_SIZE < body_size (pre ++ [c]))%Z \/
  (MAX_FILE_SIZE < file_size (parse_all p0 (pre ++ [c])))%Z ->
  exists d,
    upload_run request store = (Abort (mkHTTPException 413 d), S (length pre)).
Proof.
  intros Hquiet Hf Hw Hp Hstream Hbody Hfile Hcross.
  destruct (stream_loop_within Hquiet pre
              (mkState 0 p0 (mkTarget filename write_path None 0 store) 0))
    as (st & Hloop & Hlen & Hsofar & _ & Hread & Hparser);
    [cbn [body_len]; lia | cbn [file_ so_far parser_st]; lia |].
  cbn [body_len file_ so_far parser_st chunks_read] in Hlen, Hsofar, Hread, Hparser.
  destruct (loop_body_crossing Hquiet st c) as (st' & e & Hstep & Hread' & He).
  { lia. }
  { rewrite body_size_app, (parse_all_app Hquiet), file_size_app in Hcross.
    cbn [parse_all body_size fold_right] in Hcross.
    rewrite Hlen, Hsofar, Hparser.
    destruct Hquiet as (_ & Htotal & _).
    destruct (Htotal (parser_after p0 pre) c) as [p' Hp'].
    destruct (data_received (parser_after p0 pre) c) as [evs r].
    cbn [snd fst] in *. subst r.
    rewrite app_nil_r in Hcross. lia. }
  unfold upload_run, consume.
  rewrite Hf, Hw, Hp, Hstream, stream_loop_app, Hloop.
  cbn [stream_loop]. rewrite Hstep, Hread', Hread.
  destruct He as [-> | ->]; eauto.
Qed.

(** C7: the file bound is 50 GiB and the body bound 50 GiB + 1 KiB; a
    request without the Filename or the WritePath header is answered 422
    before any chunk is read; an upload whose body and file stay within
    their bounds, the bounds included, is answered with the storage uri;
    and at the first chunk that takes the body or the file over its
    bound the handler answers 413 without reading any further chunk. *)
Theorem upload_file_size_limits :
  MAX_FILE_SIZE = (50 * 2 ^ 30)%Z /\
  MAX_REQUEST_BODY_SIZE = (50 * 2 ^ 30 + 2 ^ 10)%Z /\
  (forall (E : UploadEnv) (request : Request) (store : storage),
      headers_get (headers request) "Filename" = None \/
      headers_get (headers request) "WritePath" = None ->
      exists d, upload_run request store = (Abort (mkHTTPException 422 d), 0%nat)) /\
  (forall (E : UploadEnv) (request : Request) (store : storage)
          (filename write_path : string) (p0 : parser),
      uneventful E ->
      headers_get (headers request) "Filename" = Some filename ->
      headers_get (headers request) "WritePath" = Some write_path ->
      new_parser (headers request) = Return p0 ->
      (body_size (stream request) <= MAX_REQUEST_BODY_SIZE)%Z ->
      (file_size (parse_all p0 (stream request)) <= MAX_FILE_SIZE)%Z ->
      truthy (last_filename (parse_all p0 (stream request)) None) = true ->
      upload_run request store
      = (Respond {[ "storage_uri" := os_path_join write_path filename ]},
         length (stream request))) /\
  (forall (E : UploadEnv) (request : Request) (store : storage)
          (filename write_path : string) (p0 : parser)
          (pre : list chunk) (c : chunk) (rest : list chunk),
      uneventful E ->
      headers_get (headers request) "Filename" = Some filename ->
      headers_get (headers request) "WritePath" = Some write_path ->
      new_parser (headers request) = Return p0 ->
      stream request = (pre ++ c :: rest)%list ->
      (body_size pre <= MAX_REQUEST_BODY_SIZE)%Z ->
      (file_size (parse_all p0 pre) <= MAX_FILE_SIZE)%Z ->
      (MAX_REQUEST_BODY_SIZE < body_size (pre ++ [c]))%Z \/
      (MAX_FILE_SIZE < file_size (parse_all p0 (pre ++ [c])))%Z ->
      exists d,
        upload_run request store
        = (Abort (mkHTTPException 413 d), S (length pre))).
Proof.
  split; [reflexivity|]. split; [reflexivity|].
  split; [intros; by apply upload_missing_header|].
  split; [intros; by eapply upload_within_limits|].
  intros. by eapply upload_crossing.
Qed.


End UploadTheorems.

(** ** The upload route on sample requests *)

Lemma sized_env_uneventful : Routes.uneventful Samples.sized_env.
Proof.
  repeat split.
  - intros c. cbn. destruct c; cbn; lia.
  - intros p c. destruct c; cbn; eauto.
  - intros s w f. cbn. eauto.
  - intros s c. cbn. eauto.
  - intros s. cbn. eauto.
Qed.

Lemma upload_file_size_limits_witness :
  Routes.upload_run (Samples.upload_of 53687091200 Routes.EndOfStream) 0%Z
  = (Routes.Respond
       {[ "storage_uri" := Pathlib.os_path_join "models/v1" "model.onnx" ]},
     3%nat) /\
  (exists d,
      Routes.upload_run (Samples.upload_of 53687091201 Routes.EndOfStream) 0%Z
      = (Routes.Abort (Routes.mkHTTPException 413 d), 2%nat)) /\
  (exists d,
      Routes.upload_run
        (Routes.mkRequest Samples.sized_env ∅ [] Routes.EndOfStream) 0%Z
      = (Routes.Abort (Routes.mkHTTPException 422 d), 0%nat)).
Proof.
  destruct upload_file_size_limits as (_ & _ & H422 & Hwithin & Hcrossing).
  split; [|split].
  - apply (Hwithin Samples.sized_env
             (Samples.upload_of 53687091200 Routes.EndOfStream) 0%Z
             "model.onnx" "models/v1" tt).
    + apply sized_env_uneventful.
    + vm_compute. reflexivity.
    + vm_compute. reflexivity.
    + reflexivity.
    + vm_compute. discriminate.
    + vm_compute. discriminate.
    + reflexivity.
  - apply (Hcrossing Samples.sized_env
             (Samples.upload_of 53687091201 Routes.EndOfStream) 0%Z
             "model.onnx" "models/v1" tt
             [Samples.Preamble 200 (Some "model.onnx")]
             (Samples.FileData 53687091201) [Samples.Epilogue 50]).
    + apply sized_env_uneventful.
    + vm_compute. reflexivity.
    + vm_compute. reflexivity.
    + reflexivity.
    + reflexivity.
    + vm_compute. discriminate.
    + vm_compute. discriminate.
    + right. vm_compute. reflexivity.
  - apply (H422 Samples.sized_env). left. vm_compute. reflexivity.
Defined.


(** ** Storage settings and registry lookup *)

Section SettingsFacts.
Import Py PyStr PyStrMore Settings.

(** X1: the storage type reported by [get_storage_settings] is API exactly
    when a storage uri is configured and the service is a proxy, GCS
    exactly when a uri is configured, the service is no proxy and the uri
    contains "gs://", and LOCAL in every other case. *)
Theorem get_storage_settings_type (config : Config) :
  let configured := truthy (STORAGE_URI config) in
  let answer := get_storage_settings config in
  (storage_type answer = API <-> configured = true /\ is_proxy config = true) /\
  (storage_type answer = GCS <->
     configured = true /\ is_proxy config = false /\
     uri_contains "gs://" (STORAGE_URI config) = true) /\
  (storage_type answer = LOCAL <->
     configured = false \/
     (is_proxy config = false /\
      uri_contains "gs://" (STORAGE_URI config) = false)) /\
  storage_uri answer = STORAGE_URI config.
Proof.
  unfold get_storage_settings. destruct config as [uri px v]. cbn.
  destruct (truthy uri), px, (uri_contains "gs://" uri); cbn;
    repeat split; try (intros; discriminate); try tauto;
    try (intros (? & ?); discriminate); try (intros (? & ? & ?); discriminate);
    try (intros [?|[? ?]]; discriminate).
Qed.

(** X2: the two versions of the settings route, in artifacts_routes.py and
    in settings.py, report the same storage type and the same storage uri
    for every configuration, and the same proxy flag whenever the former
    reports one. *)
Theorem get_storage_settings_versions_agree (config : Config) :
  storage_type (get_storage_settings config)
  = storage_type (settings_get_storage_settings config) /\
  storage_uri (get_storage_settings config)
  = storage_uri (settings_get_storage_settings config) /\
  (forall b, proxy (get_storage_settings config) = Some b ->
             proxy (settings_get_storage_settings config) = Some b) /\
  (proxy (get_storage_settings config) = None <->
   storage_type (get_storage_settings config) = GCS).
Proof.
  unfold get_storage_settings, settings_get_storage_settings.
  destruct config as [uri px v]. cbn.
  destruct (truthy uri), px, (uri_contains "gs://" uri); cbn;
    repeat split; try done.
Qed.

Lemma split_nonempty sep s : split sep s <> [].
Proof.
  destruct s as [|c s]; cbn; [done|].
  destruct (Ascii.eqb c sep); [done|]. by destruct (split sep s).
Qed.

(** No field of a split holds the separator. *)
Lemma split_fields_clean sep s :
  Forall (fun field => Pathlib.contains_char sep field = false) (split sep s).
Proof.
  induction s as [|c s IH]; cbn; [by repeat constructor|].
  destruct (Ascii.eqb c sep) eqn:Hc; [by constructor|].
  destruct (split sep s) as [|field fields].
  - repeat constructor. cbn. by rewrite Ascii.eqb_sym, Hc.
  - inversion IH as [|? ? Hfield Hfields]; subst.
    constructor; [|done]. cbn.
    rewrite Ascii.eqb_sym, Hc. exact Hfield.
Qed.

(** A string without the separator is its own single field. *)
Lemma split_without_sep sep s :
  Pathlib.contains_char sep s = false -> split sep s = [s].
Proof.
  induction s as [|c s IH]; cbn; [done|].
  rewrite (Ascii.eqb_sym sep c).
  destruct (Ascii.eqb c sep); cbn; [done|].
  intros H. by rewrite (IH H).
Qed.

Lemma split_with_sep sep a s :
  Pathlib.contains_char sep a = false ->
  split sep (a +:+ String sep s) = a :: split sep s.
Proof.
  induction a as [|c a IH]; intros H.
  - change ("" +:+ String sep s) with (String sep s).
    cbn [split]. by rewrite Ascii.eqb_refl.
  - cbn in H. rewrite (Ascii.eqb_sym sep c) in H.
    change (String c a +:+ String sep s) with (String c (a +:+ String sep s)).
    cbn [split]. destruct (Ascii.eqb c sep); [done|].
    cbn in H. by rewrite (IH H).
Qed.

Lemma contains_char_split sep s :
  Pathlib.contains_char sep s = true ->
  exists a rest, s = a +:+ String sep rest /\ Pathlib.contains_char sep a = false.
Proof.
  induction s as [|c s IH]; cbn; [done|].
  destruct (Ascii.eqb sep c) eqn:Hc; cbn.
  - apply Ascii.eqb_eq in Hc as <-. intros _. by exists "", s.
  - intros H. destruct (IH H) as (a & rest & -> & Ha).
    exists (String c a), rest. split; [done|]. cbn. by rewrite Hc.
Qed.

Lemma lower_char_plain c :
  Ascii.eqb "_" c = false -> Projects.plain_char (lower_char c) = true.
Proof.
  destruct c as [[] [] [] [] [] [] [] []]; vm_compute; intros H;
    first [reflexivity | discriminate H].
Qed.

Lemma lower_plain field :
  Pathlib.contains_char "_" field = false ->
  forall_chars Projects.plain_char (lower field) = true.
Proof.
  unfold lower. induction field as [|c field IH]; [done|].
  cbn [Pathlib.contains_char map_chars forall_chars]. intros H.
  apply orb_false_elim in H as [Hc H].
  by rewrite (lower_char_plain c Hc), (IH H).
Qed.


(** X4: for a table name made of fields joined by underscores, the
    registry name is the second field in lower case, whatever follows
    it. *)
Theorem table_for_registry_second_field (a b : string) :
  Pathlib.contains_char "_" a = false ->
  Pathlib.contains_char "_" b = false ->
  table_for_registry (a +:+ "_" +:+ b) = Return (lower b) /\
  forall rest,
    table_for_registry (a +:+ "_" +:+ b +:+ "_" +:+ rest) = Return (lower b).
Proof.
  intros Ha Hb. unfold table_for_registry. split.
  - change ("_" +:+ b) with (String "_" b).
    by rewrite (split_with_sep _ _ _ Ha), (split_without_sep _ _ Hb).
  - intros rest.
    change ("_" +:+ b +:+ "_" +:+ rest) with (String "_" (b +:+ String "_" rest)).
    by rewrite (split_with_sep _ _ _ Ha), (split_with_sep _ _ _ Hb).
Qed.

End SettingsFacts.


Lemma table_for_registry_second_field_witness :
  Settings.table_for_registry "OPSML_MODEL_REGISTRY" = Py.Return "model".
Proof.
  apply (proj2 (table_for_registry_second_field "OPSML" "MODEL" eq_refl eq_refl)
           "REGISTRY").
Defined.

(** ** Schemas of tables *)

Section SchemaFacts.
Import Py Frames Formatter.

Local Abbreviation schema_step :=
  (fun (acc : gmap string (option string)) (ft : string * string) =>
     <[fst ft := Some (snd ft)]> acc).

Lemma fill_schema_columns (cols : list column) (m : gmap string (option string)) :
  fill_schema (names cols) (dtypes cols) m
  = fold_left schema_step (map (fun c => (col_name c, col_dtype c)) cols) m.
Proof.
  unfold fill_schema, names, dtypes. f_equal.
  induction cols as [|c cols IH]; [reflexivity|]. cbn. by rewrite IH.
Qed.

Lemma schema_fold_dom (l : list (string * string)) (m : gmap string (option string)) :
  dom (fold_left schema_step l m) = list_to_set (map fst l) ∪ dom m.
Proof.
  revert m. induction l as [|x l IH]; intros m; cbn [fold_left map list_to_set].
  - by rewrite union_empty_l_L.
  - rewrite IH, dom_insert_L, (assoc_L (∪)).
    by rewrite (comm_L (∪) (list_to_set (map fst l)) {[x.1]}).
Qed.

Lemma schema_fold_other (l : list (string * string)) (m : gmap string (option string)) k :
  k ∉ map fst l -> fold_left schema_step l m !! k = m !! k.
Proof.
  revert m. induction l as [|x l IH]; intros m Hk; cbn [fold_left]; [done|].
  cbn [map] in Hk. apply not_elem_of_cons in Hk as [Hx Hk].
  rewrite (IH _ Hk). by rewrite lookup_insert_ne.
Qed.

Lemma schema_fold_lookup (l : list (string * string)) (m : gmap string (option string)) k v :
  NoDup (map fst l) -> (k, v) ∈ l ->
  fold_left schema_step l m !! k = Some (Some v).
Proof.
  revert m. induction l as [|x l IH]; intros m Hnd Hin; [by apply elem_of_nil in Hin|].
  cbn [map] in Hnd. apply NoDup_cons in Hnd as [Hx Hnd].
  cbn [fold_left]. apply elem_of_cons in Hin as [<-|Hin].
  - rewrite schema_fold_other by exact Hx. by rewrite lookup_insert_eq.
  - by apply IH.
Qed.

Lemma arrow_schema_facts (t : ArrowTbl) :
  dom (create_table_schema (DArrow t)) = list_to_set (schema_names t) /\
  (forall cols c,
      pa_columns t = (cols ++ [c])%list ->
      create_table_schema (DArrow t) !! col_name c = Some (Some (col_dtype c))) /\
  (NoDup (schema_names t) ->
   (forall c, c ∈ pa_columns t ->
              create_table_schema (DArrow t) !! col_name c
              = Some (Some (col_dtype c))) /\
   size (create_table_schema (DArrow t)) = length (pa_columns t)).
Proof.
  destruct t as [cols]. unfold create_table_schema, schema_names, schema_types.
  cbn [pa_columns]. rewrite fill_schema_columns.
  assert (Hfst : map fst (map (fun c => (col_name c, col_dtype c)) cols) = names cols).
  { unfold names. rewrite map_map. reflexivity. }
  split; [|split].
  - by rewrite schema_fold_dom, Hfst, dom_empty_L, union_empty_r_L.
  - intros cols' c ->. rewrite map_app, fold_left_app. cbn.
    by rewrite lookup_insert_eq.
  - intros Hnd. split.
    + intros c Hc. apply schema_fold_lookup; [by rewrite Hfst|].
      apply (list_elem_of_fmap_2 (fun c => (col_name c, col_dtype c))) in Hc.
      exact Hc.
    + rewrite <- size_dom, schema_fold_dom, Hfst, dom_empty_L, union_empty_r_L.
      rewrite size_list_to_set by exact Hnd. unfold names. by rewrite length_map.
Qed.






End SchemaFacts.

(** ** Folding insertions into a map *)

Section InsertFold.
Context {X V : Type} (f : X -> V).

Local Abbreviation insert_step :=
  (fun (acc : gmap string V) (kx : string * X) => <[fst kx := f (snd kx)]> acc).

Lemma insert_fold_dom (l : list (string * X)) (m : gmap string V) :
  dom (fold_left insert_step l m) = list_to_set (map fst l) ∪ dom m.
Proof.
  revert m. induction l as [|x l IH]; intros m; cbn [fold_left map list_to_set].
  - by rewrite union_empty_l_L.
  - rewrite IH, dom_insert_L, (assoc_L (∪)).
    by rewrite (comm_L (∪) (list_to_set (map fst l)) {[x.1]}).
Qed.

Lemma insert_fold_other (l : list (string * X)) (m : gmap string V) k :
  k ∉ map fst l -> fold_left insert_step l m !! k = m !! k.
Proof.
  revert m. induction l as [|x l IH]; intros m Hk; cbn [fold_left]; [done|].
  cbn [map] in Hk. apply not_elem_of_cons in Hk as [Hx Hk].
  rewrite (IH _ Hk). by rewrite lookup_insert_ne.
Qed.

Lemma insert_fold_lookup (l : list (string * X)) (m : gmap string V) k x :
  NoDup (map fst l) -> (k, x) ∈ l ->
  fold_left insert_step l m !! k = Some (f x).
Proof.
  revert m. induction l as [|y l IH]; intros m Hnd Hin; [by apply elem_of_nil in Hin|].
  cbn [map] in Hnd. apply NoDup_cons in Hnd as [Hy Hnd].
  cbn [fold_left]. apply elem_of_cons in Hin as [<-|Hin].
  - rewrite insert_fold_other by exact Hy. by rewrite lookup_insert_eq.
  - by apply IH.
Qed.

(** Every entry comes from the map folded into or from an item of the
    list. *)
Lemma insert_fold_inv (l : list (string * X)) (m : gmap string V) k v :
  fold_left insert_step l m !! k = Some v ->
  m !! k = Some v \/ exists x, (k, x) ∈ l /\ v = f x.
Proof.
  revert m. induction l as [|y l IH]; intros m H; cbn [fold_left] in H; [by left|].
  apply IH in H as [H|(x & Hx & ->)].
  - destruct (decide (y.1 = k)) as [<-|Hne].
    + rewrite lookup_insert_eq in H. injection H as <-.
      right. exists (y.2). split; [|done]. destruct y. apply list_elem_of_here.
    + rewrite lookup_insert_ne in H by done. by left.
  - right. exists x. split; [|done]. by apply list_elem_of_further.
Qed.
End InsertFold.

(** ** More on saving a polars frame *)

Section PolarsMoreFacts.
Import Py Frames Pathlib Polars.

Variable to_arrow : PolarsDataFrame -> ArrowTbl.

(** X8: [save_data] without a frame raises an [AssertionError]; with a
    frame it writes the arrow form of the frame at the path it is given
    and touches no other file, leaves the frame itself as it is, and
    records a feature map whose keys are the column names; when these are
    distinct, every column is recorded with its dtype and the shape (1,). *)
Theorem save_data_effects (sfx : string) (self : PolarsData)
    (fs : gmap Path ArrowTbl) (path : Path) :
  match data self with
  | None =>
      save_data to_arrow sfx self fs path
      = Raise (AssertionError "No data detected in interface")
  | Some d =>
      forall self' fs' save_path,
        save_data to_arrow sfx self fs path = Return (self', fs', save_path) ->
        with_suffix path sfx = Return save_path /\
        data self' = Some d /\
        fs' !! path = Some (to_arrow d) /\
        (forall q, q <> path -> fs' !! q = fs !! q) /\
        dom (feature_map self') = list_to_set (names (pl_columns d)) /\
        (NoDup (names (pl_columns d)) ->
         forall c, c ∈ pl_columns d ->
                   feature_map self' !! col_name c
                   = Some (mkFeature (col_dtype c) [1%nat]))
  end.
Proof.
  unfold save_data. destruct (data self) as [d|] eqn:Hd; [|reflexivity].
  intros self' fs' save_path.
  destruct (with_suffix path sfx) as [sp|e]; cbn [bind]; [|discriminate].
  intros H. injection H as <- <- <-. cbn [data feature_map].
  assert (Hfst : map fst (pl_schema_items d) = names (pl_columns d)).
  { unfold pl_schema_items, names. by rewrite map_map. }
  split; [done|]. split; [done|]. split; [apply lookup_insert_eq|].
  split; [intros q Hq; by apply lookup_insert_ne|].
  unfold schema_features. split.
  - by rewrite (insert_fold_dom (fun ty => mkFeature ty [1%nat])),
      Hfst, dom_empty_L, union_empty_r_L.
  - intros Hnd c Hc.
    apply (insert_fold_lookup (fun ty => mkFeature ty [1%nat])); [by rewrite Hfst|].
    unfold pl_schema_items.
    by apply (list_elem_of_fmap_2 (fun c => (col_name c, col_dtype c))).
Qed.

End PolarsMoreFacts.



Lemma save_data_effects_witness :
  let d := Frames.PolarsDF [Frames.Column "x" "Int64" [Frames.SInt 1]] in
  exists self' fs' save_path,
    Polars.save_data (fun d => Frames.PaTable (Frames.pl_columns d)) ".parquet"
      (Polars.mkPolarsData (Some d) ∅) ∅ ["data"]
    = Py.Return (self', fs', save_path) /\
    save_path = ["data.parquet"] /\
    fs' !! ["data"] = Some (Frames.PaTable (Frames.pl_columns d)) /\
    fs' !! ["data.parquet"] = None.
Proof.
  intros d. eexists _, _, _. split; [reflexivity|].
  destruct (save_data_effects (fun d => Frames.PaTable (Frames.pl_columns d))
              ".parquet" (Polars.mkPolarsData (Some d) ∅) ∅ ["data"]
              _ _ _ eq_refl) as (Hsp & _ & Hfile & Hothers & _).
  split; [reflexivity|]. split; [exact Hfile|].
  rewrite Hothers by discriminate. apply lookup_empty.
Defined.

(** ** More on project identifiers *)

Section ProjectMoreFacts.
Import Py PyStr Projects.

Lemma replace_lower_char c :
  replace_char "_" "-" (lower_char c) = lower_char (replace_char "_" "-" c).
Proof. destruct c as [[] [] [] [] [] [] [] []]; vm_compute; reflexivity. Qed.

Lemma normalized_via_lower v : normalized v = replace "_" "-" (strip (lower v)).
Proof.
  unfold normalized, lower. by rewrite strip_map_chars by apply isspace_lower_char.
Qed.

Lemma normalized_via_replace v : normalized v = lower (strip (replace "_" "-" v)).
Proof.
  unfold normalized, lower, replace.
  rewrite (strip_map_chars (replace_char "_" "-")) by apply isspace_replace_char.
  rewrite !map_chars_compose. apply map_chars_ext, replace_lower_char.
Qed.

(** X10: the identifier the validator stores does not depend on the case
    of the input, on white space around it, or on whether underscores or
    hyphens are written: two inputs that agree after lowercasing, after
    stripping, or after replacing underscores by hyphens get the same
    identifier. *)
Theorem identifier_validator_insensitive (a b : string) :
  (lower a = lower b ->
   identifier_validator (Some a) = identifier_validator (Some b)) /\
  (strip a = strip b ->
   identifier_validator (Some a) = identifier_validator (Some b)) /\
  (replace "_" "-" a = replace "_" "-" b ->
   identifier_validator (Some a) = identifier_validator (Some b)).
Proof.
  cbn [identifier_validator]. fold (normalized a) (normalized b).
  split; [|split]; intros H; f_equal.
  - by rewrite !normalized_via_lower, H.
  - unfold normalized. by rewrite H.
  - by rewrite !normalized_via_replace, H.
Qed.

Lemma identifier_validator_insensitive_witness :
  identifier_validator (Some "My_Project") = identifier_validator (Some "MY_PROJECT") /\
  identifier_validator (Some "  my_project ") = identifier_validator (Some "my_project") /\
  identifier_validator (Some "my_project") = identifier_validator (Some "my-project").
Proof.
  split; [|split].
  - apply (proj1 (identifier_validator_insensitive "My_Project" "MY_PROJECT")).
    reflexivity.
  - apply (proj1 (proj2 (identifier_validator_insensitive "  my_project " "my_project"))).
    reflexivity.
  - apply (proj2 (proj2 (identifier_validator_insensitive "my_project" "my-project"))).
    reflexivity.
Defined.

Lemma lstrip_all_space s : forall_chars isspace s = true -> lstrip s = "".
Proof.
  induction s as [|c s IH]; cbn; [done|].
  destruct (isspace c); cbn; [exact IH | discriminate].
Qed.

(** X11: building a [ProjectInfo] succeeds exactly when name and team are
    non-empty after normalization and the e-mail, if there is one, is not
    empty; every failure is a [ValidationError]; in particular a name of
    white space only is rejected although it is not empty, and so is a
    missing name. *)
Theorem ProjectInfo_init_outcome
    (name_ team_ : string) (email run : option string) (uri : string) :
  ((exists p, ProjectInfo_init (Some name_) (Some team_) email run uri = Return p) <->
   normalized name_ <> "" /\ normalized team_ <> "" /\ email <> Some "") /\
  (forall e, ProjectInfo_init (Some name_) (Some team_) email run uri = Raise e ->
             exn_class e = "ValidationError") /\
  (forall_chars isspace name_ = true ->
   exists msg, ProjectInfo_init (Some name_) (Some team_) email run uri
               = Raise (ValidationError msg)) /\
  (exists msg, ProjectInfo_init None (Some team_) email run uri
               = Raise (ValidationError msg)).
Proof.
  split; [|split; [|split]].
  - split.
    + intros [p Hp]. unfold ProjectInfo_init in Hp.
      cbn [identifier_validator] in Hp.
      fold (normalized name_) (normalized team_) in Hp.
      destruct (required_str "name" _) as [n|] eqn:Hn; [|discriminate].
      destruct (required_str "team" _) as [t|] eqn:Ht; [|discriminate].
      apply required_str_inv in Hn as [Hn Hn'], Ht as [Ht Ht'].
      injection Hn as <-. injection Ht as <-.
      split; [done|]. split; [done|].
      intros ->. discriminate Hp.
    + intros (Hn & Ht & He). eexists.
      by apply ProjectInfo_init_succeeds.
  - unfold ProjectInfo_init. cbn [identifier_validator required_str].
    intros e.
    destruct (String.length _ <? 1)%nat; cbn [bind];
      [intros H; by injection H as <-|].
    destruct (String.length _ <? 1)%nat; cbn [bind];
      [intros H; by injection H as <-|].
    destruct email as [[|c s]|]; cbn; intros H; try discriminate.
    by injection H as <-.
  - intros Hspace. unfold ProjectInfo_init. cbn [identifier_validator].
    unfold strip. rewrite (lstrip_all_space _ Hspace). cbn. eauto.
  - cbn. eauto.
Qed.

Lemma ProjectInfo_init_outcome_witness :
  exists msg, ProjectInfo_init (Some "   ") (Some "team") None None "uri"
              = Raise (ValidationError msg).
Proof.
  apply (proj1 (proj2 (proj2 (ProjectInfo_init_outcome "   " "team" None None "uri")))).
  reflexivity.
Defined.

Lemma colon_prefix_inj (a a' b b' : string) :
  Pathlib.contains_char ":" a = false ->
  Pathlib.contains_char ":" a' = false ->
  a +:+ ":" +:+ b = a' +:+ ":" +:+ b' ->
  a = a' /\ b = b'.
Proof.
  revert a'. induction a as [|c a IH]; intros [|c' a'] Ha Ha' H.
  - change (String ":" b = String ":" b') in H. by injection H as ->.
  - change (String ":" b = String c' (a' +:+ ":" +:+ b')) in H.
    injection H as <- _. cbn in Ha'. discriminate.
  - change (String c (a +:+ ":" +:+ b) = String ":" b') in H.
    injection H as -> _. cbn in Ha. discriminate.
  - change (String c (a +:+ ":" +:+ b) = String c' (a' +:+ ":" +:+ b')) in H.
    injection H as -> H. cbn in Ha, Ha'.
    apply orb_false_elim in Ha as [_ Ha], Ha' as [_ Ha'].
    destruct (IH a' Ha Ha' H) as [-> ->]. done.
Qed.

(** X12: among projects whose team holds no colon, the project id
    determines the project: two such projects with the same id have the
    same team and the same name. *)
Theorem project_id_injective (p q : ProjectInfo) :
  Pathlib.contains_char ":" (team p) = false ->
  Pathlib.contains_char ":" (team q) = false ->
  project_id p = project_id q ->
  team p = team q /\ name p = name q.
Proof.
  unfold project_id. intros Hp Hq H.
  by apply (colon_prefix_inj _ _ _ _ Hp Hq).
Qed.

Lemma project_id_injective_witness :
  let p := mkProjectInfo "churn" "growth" None None "uri-a" in
  let q := mkProjectInfo "churn" "growth" (Some "a@b.c") (Some "run") "uri-b" in
  team p = team q /\ name p = name q.
Proof.
  intros p q. apply (project_id_injective p q); reflexivity.
Defined.

End ProjectMoreFacts.

(** ** Registry records *)

Section RecordFacts.
Import Py PyVal RecordModels.

Lemma splits_round_trip_facts (splits : pyval) :
  get_splits (convert_to_dict splits) = Return splits /\
  (truth splits = true ->
   convert_to_dict splits = VDict {[ "splits" := splits ]}) /\
  (truth splits = false -> convert_to_dict splits = splits).
Proof.
  unfold get_splits, convert_to_dict.
  destruct (truth splits) eqn:Htruth.
  - split; [|by split]. cbn [truth get].
    by rewrite map_size_singleton, lookup_singleton_eq.
  - rewrite Htruth. by repeat split.
Qed.

(** X13: what [convert_to_dict] stores for the data splits, [get_splits]
    gives back unchanged, for every value of the splits: a truthy value is
    wrapped in a dictionary under "splits" and unwrapped again, a falsy one
    passes through both. *)
Theorem splits_round_trip (splits : pyval) :
  get_splits (convert_to_dict splits) = Return splits /\
  (truth splits = true ->
   convert_to_dict splits = VDict {[ "splits" := splits ]}) /\
  (truth splits = false -> convert_to_dict splits = splits).
Proof. apply splits_round_trip_facts. Qed.

Lemma splits_round_trip_witness :
  let splits := VList [VDict {[ "label" := VStr "train" ]}] in
  convert_to_dict splits = VDict {[ "splits" := splits ]} /\
  get_splits (convert_to_dict splits) = Return splits.
Proof.
  intros splits. destruct (splits_round_trip splits) as (Hrt & Hwrap & _).
  split; [apply Hwrap; reflexivity | exact Hrt].
Defined.

Variable load_record_artifact_from_storage : pyval -> pyval -> result pyval.

(** X14: [load_attributes] on the values of a stored record: without a
    "data_splits" key it raises [KeyError]; when the splits were stored by
    [convert_to_dict] and the data loads, it restores the splits, puts the
    loaded data under "data", puts under "drift_report" the loaded report
    when "drift_uri" is truthy and [None] otherwise, and leaves every
    other key as it was. *)
Theorem load_attributes_restores
    (values : gmap string pyval) (splits uri ty data report : pyval) :
  (values !! "data_splits" = None ->
   load_attributes load_record_artifact_from_storage values
   = Raise (Exn "KeyError" "data_splits")) /\
  (values !! "data_splits" = Some (convert_to_dict splits) ->
   values !! "data_uri" = Some uri ->
   values !! "data_type" = Some ty ->
   load_record_artifact_from_storage uri ty = Return data ->
   let drift_uri := default VNone (values !! "drift_uri") in
   (truth drift_uri = true ->
    load_record_artifact_from_storage drift_uri (VStr "dict") = Return report) ->
   exists out,
     load_attributes load_record_artifact_from_storage values = Return out /\
     out !! "data_splits" = Some splits /\
     out !! "data" = Some data /\
     out !! "drift_report" = Some (if truth drift_uri then report else VNone) /\
     forall key, key <> "data_splits" -> key <> "data" -> key <> "drift_report" ->
                 out !! key = values !! key).
Proof.
  split.
  - intros H. unfold load_attributes, getitem. by rewrite H.
  - intros Hsplits Huri Hty Hload drift_uri Hdrift.
    unfold load_attributes, getitem. rewrite Hsplits. cbn [bind].
    rewrite (proj1 (splits_round_trip_facts splits)). cbn [bind].
    unfold load_data, getitem.
    rewrite !lookup_insert_ne, Huri, Hty by done. cbn [bind].
    rewrite Hload. cbn [bind].
    unfold load_drift_report, getitem.
    rewrite !lookup_insert_ne by done. fold drift_uri.
    destruct (truth drift_uri) eqn:Htruth.
    + assert (Hkey : values !! "drift_uri" = Some drift_uri).
      { unfold drift_uri in *. destruct (values !! "drift_uri"); [done|]. discriminate. }
      rewrite Hkey. cbn [bind]. rewrite (Hdrift eq_refl). cbn [bind].
      eexists. split; [reflexivity|].
      split; [by rewrite !lookup_insert_ne, lookup_insert_eq by done|].
      split; [by rewrite lookup_insert_ne, lookup_insert_eq by done|].
      split; [by rewrite lookup_insert_eq|].
      intros key H1 H2 H3. by rewrite !lookup_insert_ne by done.
    + eexists. split; [reflexivity|].
      split; [by rewrite !lookup_insert_ne, lookup_insert_eq by done|].
      split; [by rewrite lookup_insert_ne, lookup_insert_eq by done|].
      split; [by rewrite lookup_insert_eq|].
      intros key H1 H2 H3. by rewrite !lookup_insert_ne by done.
Qed.

End RecordFacts.

Lemma load_attributes_restores_witness :
  let loader := fun (uri ty : PyVal.pyval) => Py.Return (PyVal.VStr "loaded") in
  let splits := PyVal.VList [PyVal.VDict {[ "label" := PyVal.VStr "train" ]}] in
  let values : gmap string PyVal.pyval :=
    {[ "data_splits" := RecordModels.convert_to_dict splits;
       "data_uri" := PyVal.VStr "gs://bucket/data";
       "data_type" := PyVal.VStr "Table";
       "name" := PyVal.VStr "sales" ]} in
  exists out,
    RecordModels.load_attributes loader values = Py.Return out /\
    out !! "data_splits" = Some splits /\
    out !! "drift_report" = Some PyVal.VNone /\
    out !! "name" = Some (PyVal.VStr "sales").
Proof.
  intros loader splits values.
  destruct (proj2 (load_attributes_restores loader values splits
                     (PyVal.VStr "gs://bucket/data") (PyVal.VStr "Table")
                     (PyVal.VStr "loaded") PyVal.VNone))
    as (out & Hout & Hsplits & _ & Hdrift & Hother).
  - vm_compute. reflexivity.
  - vm_compute. reflexivity.
  - vm_compute. reflexivity.
  - reflexivity.
  - vm_compute. discriminate.
  - exists out. split; [exact Hout|]. split; [exact Hsplits|].
    split; [exact Hdrift|]. rewrite Hother by discriminate.
    vm_compute. reflexivity.
Defined.

(** ** Registry types and feature descriptions *)

Section CardTypeFacts.
Import Py PyStr CardTypes.

(** X15: [RegistryType.from_str] reads back the value of every registry
    type; it returns a type exactly when the name, stripped and lowercased,
    is the value of that type, so case and surrounding white space do not
    matter; every other name raises [NotImplementedError]. *)
Theorem from_str_value :
  (forall t, from_str (value t) = Return t) /\
  (forall name t, from_str name = Return t <-> lower (strip name) = value t) /\
  (forall name,
      (forall t, lower (strip name) <> value t) ->
      from_str name = Raise (Exn "NotImplementedError" "")).
Proof.
  split; [by intros []|]. split.
  - intros name t. unfold from_str. split.
    + repeat match goal with
             | |- context [String.eqb ?a ?b] =>
                 destruct (String.eqb_spec a b) as [Heq|_];
                 [intros H; injection H as <-; exact Heq|]
             end.
      intros H. discriminate H.
    + intros ->. by destruct t.
  - intros name H. unfold from_str.
    repeat match goal with
           | |- context [String.eqb ?a ?b] =>
               destruct (String.eqb_spec a b) as [Heq|_];
               [exfalso; first [ by apply (H DATA) | by apply (H MODEL)
                               | by apply (H RUN) | by apply (H PIPELINE)
                               | by apply (H PROJECT) | by apply (H AUDIT) ]|]
           end.
    reflexivity.
Qed.

Lemma from_str_value_witness :
  from_str "  Model " = Return MODEL /\
  from_str "models" = Raise (Exn "NotImplementedError" "").
Proof.
  destruct from_str_value as (_ & Hiff & Hnone).
  split.
  - apply (Hiff "  Model " MODEL). reflexivity.
  - apply (Hnone "models"). intros []; discriminate.
Defined.

Lemma lower_no_upper s : no_upper (lower s) = true.
Proof.
  unfold no_upper, lower. apply forall_chars_map.
  intros c. destruct c as [[] [] [] [] [] [] [] []]; vm_compute; reflexivity.
Qed.

Lemma lower_descriptions_fold (items : list (string * string)) :
  lower_descriptions items
  = fold_left (fun (acc : gmap string string) (kx : string * string) =>
                 <[fst kx := lower (snd kx)]> acc)
              (map (fun item => (lower (fst item), snd item)) items) ∅.
Proof.
  unfold lower_descriptions.
  assert (H : forall m : gmap string string,
             fold_left (fun feat_dict item =>
                          <[lower (fst item) := lower (snd item)]> feat_dict) items m
             = fold_left (fun (acc : gmap string string) (kx : string * string) =>
                            <[fst kx := lower (snd kx)]> acc)
                         (map (fun item => (lower (fst item), snd item)) items) m).
  { induction items as [|x items IH]; intros m; [reflexivity|]. cbn. apply IH. }
  destruct items; [reflexivity | apply H].
Qed.



End CardTypeFacts.

(** ** Sample data of the tensorflow interface *)

Section SampleDataFacts.
Import Py TensorFlow.
Context {record : Type}.

Lemma first_record_short (a : list record) :
  (length (first_record record a) <= 1)%nat.
Proof. unfold first_record. rewrite length_take. lia. Qed.


End SampleDataFacts.

(** ** The model loader script *)

Section LoaderFacts.
Import Py PyStrMore Pathlib PathlibMore ModelLoader.

Variable load_api_def :
  option string -> option string -> option Z -> result ModelApiDef.

Lemma bind_Return {A} (r : result A) : bind r Return = r.
Proof. by destruct r. Qed.

Lemma bind_ext {A B} (r : result A) (k k' : A -> result B) :
  (forall a, k a = k' a) -> bind r k = bind r k'.
Proof. intros H. destruct r; cbn; [apply H | reflexivity]. Qed.

Lemma for_versions_single (self : ModelLoaderCli) (v : option Z) (fs : files) :
  for_versions load_api_def self [v] fs = load_and_save_model load_api_def self v fs.
Proof. cbn [for_versions]. apply bind_Return. Qed.

Lemma save_to_local_file_as_loop (self : ModelLoaderCli) (fs : files) :
  save_to_local_file load_api_def self fs
  = for_versions load_api_def self (requested_versions self) fs.
Proof.
  unfold save_to_local_file, save_model_api_def_from_versions, requested_versions.
  destruct (uid self), (versions self) as [|v vs]; cbn [app for_versions].
  - apply bind_ext. intros fs'. symmetry. apply bind_Return.
  - reflexivity.
  - symmetry. apply bind_Return.
  - reflexivity.
Qed.

(** X18: [save_to_local_file] loads and saves, one after the other and
    stopping at the first failure, the latest version once when a uid is
    given, and then every listed version or, when none is listed, the
    latest version; so there is always at least one load, every load asks
    for a listed version or the latest, and with a uid and no versions the
    latest model is loaded and saved twice. *)
Theorem save_to_local_file_loads (self : ModelLoaderCli) (fs : files) :
  save_to_local_file load_api_def self fs
  = for_versions load_api_def self (requested_versions self) fs /\
  requested_versions self <> [] /\
  (forall v, v ∈ requested_versions self -> v = None \/ v ∈ versions self) /\
  (uid self <> None -> versions self = [] ->
   save_to_local_file load_api_def self fs
   = bind (load_and_save_model load_api_def self None fs)
          (load_and_save_model load_api_def self None)).
Proof.
  split; [apply save_to_local_file_as_loop|]. split; [|split].
  - unfold requested_versions. by destruct (uid self), (versions self).
  - unfold requested_versions. intros v Hv.
    apply elem_of_app in Hv as [Hv|Hv].
    + destruct (uid self); [|by apply elem_of_nil in Hv].
      apply list_elem_of_singleton in Hv. by left.
    + destruct (versions self); [|by right].
      apply list_elem_of_singleton in Hv. by left.
  - intros Huid Hvs. unfold save_to_local_file, save_model_api_def_from_versions.
    rewrite Hvs. by destruct (uid self).
Qed.

(** X19: the command refuses to run, with a [ValueError] and before any
    load, exactly when no uid is given and the name or the team is missing
    or empty; in every other case it runs the loads of
    [save_to_local_file] for the given versions. *)
Theorem load_model_card_to_file_validation
    (name_ team_ : option string) (version : list Z) (uid_ : option string)
    (storage_type_ : string) (fs : files) :
  let self := mkModelLoaderCli storage_type_ (map Some version) name_ team_ uid_ in
  (uid_ = None -> truthy name_ && truthy team_ = false ->
   exists msg,
     load_model_card_to_file load_api_def name_ team_ version uid_ storage_type_ fs
     = Raise (ValueError msg)) /\
  (uid_ <> None \/ truthy name_ && truthy team_ = true ->
   load_model_card_to_file load_api_def name_ team_ version uid_ storage_type_ fs
   = for_versions load_api_def self (requested_versions self) fs).
Proof.
  intros self. unfold load_model_card_to_file. cbn [forallb].
  rewrite andb_true_r. split.
  - intros -> ->. cbn. eauto.
  - intros H. rewrite save_to_local_file_as_loop. fold self.
    destruct uid_; [reflexivity|]. destruct H as [H| ->]; [done | reflexivity].
Qed.

Lemma name_joinpath (p : Path) (n : string) : Pathlib.name (joinpath p n) = n.
Proof. unfold Pathlib.name, joinpath. apply last_last. Qed.

Lemma load_and_save_model_frame (self : ModelLoaderCli) (v : option Z)
    (fs fs' : files) :
  load_and_save_model load_api_def self v fs = Return fs' ->
  (forall p, Pathlib.name p <> MODEL_FILE -> fs' !! p = fs !! p) /\ dom fs ⊆ dom fs'.
Proof.
  unfold load_and_save_model, _save_api_def.
  destruct (load_api_def _ _ _) as [api_def|]; cbn [bind]; [|discriminate].
  intros H. injection H as <-. split.
  - intros p Hp. apply lookup_insert_ne. intros <-. apply Hp.
    unfold _set_path. apply name_joinpath.
  - rewrite dom_insert. apply union_subseteq_r.
Qed.

Lemma for_versions_frame (self : ModelLoaderCli) (vs : list (option Z))
    (fs fs' : files) :
  for_versions load_api_def self vs fs = Return fs' ->
  (forall p, Pathlib.name p <> MODEL_FILE -> fs' !! p = fs !! p) /\ dom fs ⊆ dom fs'.
Proof.
  revert fs. induction vs as [|v vs IH]; intros fs; cbn [for_versions].
  - intros H. by injection H as <-.
  - destruct (load_and_save_model load_api_def self v fs) as [fs1|] eqn:H1;
      cbn [bind]; [|discriminate].
    intros H. apply load_and_save_model_frame in H1 as [Hframe1 Hdom1].
    apply IH in H as [Hframe Hdom]. split.
    + intros p Hp. by rewrite Hframe, Hframe1.
    + by transitivity (dom fs1).
Qed.

(** X20: a successful run of [save_to_local_file] only writes files named
    model_def.json: every other file keeps its content, and no file
    disappears. *)
Theorem save_to_local_file_frame (self : ModelLoaderCli) (fs fs' : files) :
  save_to_local_file load_api_def self fs = Return fs' ->
  (forall p, Pathlib.name p <> MODEL_FILE -> fs' !! p = fs !! p) /\ dom fs ⊆ dom fs'.
Proof.
  rewrite save_to_local_file_as_loop. apply for_versions_frame.
Qed.

End LoaderFacts.

Lemma save_to_local_file_loads_witness :
  let load := fun (n t : option string) (v : option Z) =>
                Py.Return (ModelLoader.mkModelApiDef "3" "{}") in
  let self := ModelLoader.mkModelLoaderCli "local" [] None None (Some "uid-1") in
  ModelLoader.save_to_local_file load self ∅
  = Py.bind (ModelLoader.load_and_save_model load self None ∅)
            (ModelLoader.load_and_save_model load self None).
Proof.
  intros load self.
  apply (proj2 (proj2 (proj2 (save_to_local_file_loads load self ∅)))).
  - discriminate.
  - reflexivity.
Defined.

Lemma load_model_card_to_file_validation_witness :
  exists msg,
    ModelLoader.load_model_card_to_file
      (fun _ _ _ => Py.Return (ModelLoader.mkModelApiDef "3" "{}"))
      (Some "model") (Some "") [] None "local" ∅
    = Py.Raise (Py.ValueError msg).
Proof.
  apply (proj1 (load_model_card_to_file_validation
                  (fun _ _ _ => Py.Return (ModelLoader.mkModelApiDef "3" "{}"))
                  (Some "model") (Some "") [] None "local" ∅));
    reflexivity.
Defined.

Lemma save_to_local_file_frame_witness :
  let load := fun (n t : option string) (v : option Z) =>
                Py.Return (ModelLoader.mkModelApiDef "3" "{}") in
  let self := ModelLoader.mkModelLoaderCli "local" [Some 3%Z] (Some "churn")
                (Some "growth") None in
  let fs : gmap Pathlib.Path string := {[ ["README.md"] := "notes" ]} in
  exists fs',
    ModelLoader.save_to_local_file load self fs = Py.Return fs' /\
    fs' !! ["README.md"] = Some "notes" /\
    fs' !! ["app"; "onnx_model"; "churn"; "3"; "model_def.json"] = Some "{}".
Proof.
  intros load self fs.
  pose proof (save_to_local_file_frame load self fs) as Hframe.
  destruct (ModelLoader.save_to_local_file load self fs) as [fs'|e] eqn:Hrun.
  - destruct (Hframe fs' eq_refl) as [Hkeep _].
    exists fs'. split; [reflexivity|]. split.
    + rewrite Hkeep by discriminate. vm_compute. reflexivity.
    + vm_compute in Hrun. injection Hrun as <-. vm_compute. reflexivity.
  - vm_compute in Hrun. discriminate Hrun.
Defined.

(** ** File records and splits of a dataset *)

Section FileRecordFacts.
Import Py Pathlib PathlibMore CustomData.

Variable Path_of_str : string -> Path.

(** X21: when [check_args] returns, the record has the file path it was
    given and a size; a size given and not zero is kept as it is, without
    looking at the disk; a missing or zero size is replaced by the size of
    the file on disk; and checking the returned arguments again returns
    them unchanged.  Without a file path, or with no size and no file on
    disk, it raises an [AssertionError]. *)
Theorem check_args_outcome (fs : disk) (args : data_args) :
  (forall out,
      check_args Path_of_str fs args = Return out ->
      arg_filepath out = arg_filepath args /\
      (exists a, arg_filepath args = Some a /\
                 (size_truthy (arg_size args) = true -> out = args) /\
                 (size_truthy (arg_size args) = false ->
                  arg_size out = fs !! to_path Path_of_str a)) /\
      (exists n, arg_size out = Some n) /\
      check_args Path_of_str fs out = Return out) /\
  (forall e, check_args Path_of_str fs args = Raise e ->
             exn_class e = "AssertionError" /\
             (arg_filepath args = None \/
              exists a, arg_filepath args = Some a /\
                        size_truthy (arg_size args) = false /\
                        fs !! to_path Path_of_str a = None)).
Proof.
  unfold check_args. destruct args as [[a|] sz]; cbn [arg_filepath arg_size option_map].
  - destruct (size_truthy sz) eqn:Hsz.
    + split; [|discriminate]. intros out H. injection H as <-.
      cbn [arg_filepath arg_size option_map]. rewrite Hsz.
      split; [done|]. split; [exists a; by repeat split|]. split; [|done].
      destruct sz; [eauto | discriminate].
    + destruct (fs !! to_path Path_of_str a) as [n|] eqn:Hfile.
      * split; [|discriminate]. intros out H. injection H as <-.
        cbn [arg_filepath arg_size option_map]. rewrite Hfile.
        split; [done|]. split; [exists a; by repeat split|]. split; [eauto|].
        by destruct (size_truthy (Some n)).
      * split; [discriminate|]. intros e H. injection H as <-.
        split; [done|]. right. by exists a.
  - split; [discriminate|]. intros e H. injection H as <-. split; [done | by left].
Qed.

End FileRecordFacts.

Lemma check_args_outcome_witness :
  let Path_ := fun s : string => [s] in
  let fs : gmap Pathlib.Path Z := {[ ["cat.png"] := 2048%Z ]} in
  let args := CustomData.mkDataArgs (Some (CustomData.AsStr "cat.png")) (Some 0%Z) in
  exists out,
    CustomData.check_args Path_ fs args = Py.Return out /\
    CustomData.arg_size out = Some 2048%Z /\
    CustomData.check_args Path_ fs out = Py.Return out.
Proof.
  intros Path_ fs args. eexists. split; [reflexivity|].
  destruct (proj1 (check_args_outcome Path_ fs args) _ eq_refl)
    as (_ & _ & _ & Hagain).
  split; [reflexivity | exact Hagain].
Defined.

Section SplitDataFacts.
Import Py CustomData.

Variable Metadata : Type.
Variable _load_metadata_from_file : option string -> result Metadata.

Lemma load_each_dom (dirs : list string) (splits out : gmap (option string) Metadata) :
  load_each Metadata _load_metadata_from_file dirs splits = Return out ->
  dom out = list_to_set (Some <$> dirs) ∪ dom splits.
Proof.
  revert splits. induction dirs as [|d dirs IH]; intros splits; cbn [load_each].
  - intros H. injection H as <-. cbn. by rewrite union_empty_l_L.
  - destruct (_load_metadata_from_file (Some d)) as [m|]; cbn [bind]; [|discriminate].
    intros H. rewrite (IH _ H), dom_insert_L. cbn [fmap list_fmap list_to_set].
    rewrite (assoc_L (∪)).
    by rewrite (comm_L (∪) (list_to_set (Some <$> dirs)) {[Some d]}).
Qed.

(** X22: [split_data] leaves splits that are already there untouched;
    started without splits it ends, when every load succeeds, with one
    split per subdirectory, or with the single split [None] when there is
    no subdirectory; either way the result is not empty, so a second call
    changes nothing. *)
Theorem split_data_outcome (dirs : list string)
    (splits out : gmap (option string) Metadata) :
  split_data Metadata _load_metadata_from_file dirs splits = Return out ->
  (size splits <> 0%nat -> out = splits) /\
  (size splits = 0%nat ->
   dom out = match dirs with
             | [] => {[ None ]}
             | _ => list_to_set (Some <$> dirs)
             end) /\
  size out <> 0%nat /\
  forall dirs',
    split_data Metadata _load_metadata_from_file dirs' out = Return out.
Proof.
  unfold split_data. destruct (Nat.eqb_spec (size splits) 0) as [Hempty|Hfull]; cbn [negb].
  - apply map_size_empty_iff in Hempty as ->. intros H.
    assert (Hdom : dom out = match dirs with
                             | [] => {[ None ]}
                             | _ => list_to_set (Some <$> dirs)
                             end).
    { destruct dirs as [|d dirs].
      - destruct (_load_metadata_from_file None) as [m|]; cbn [bind] in H;
          [|discriminate].
        injection H as <-. by rewrite dom_insert_L, dom_empty_L, union_empty_r_L.
      - apply load_each_dom in H. by rewrite H, dom_empty_L, union_empty_r_L. }
    assert (Hsize : size out <> 0%nat).
    { intros Hout. apply map_size_empty_iff in Hout. subst out.
      rewrite dom_empty_L in Hdom. destruct dirs as [|d dirs].
      - apply (f_equal (fun s : gset (option string) => size s)) in Hdom.
        rewrite size_empty, size_singleton in Hdom. discriminate.
      - cbn [fmap list_fmap list_to_set] in Hdom.
        assert (Hin : Some d ∈ (∅ : gset (option string))).
        { rewrite Hdom. apply elem_of_union_l. by apply elem_of_singleton. }
        by apply not_elem_of_empty in Hin. }
    split; [by rewrite map_size_empty|]. split; [done|]. split; [done|].
    intros dirs'. by destruct (Nat.eqb_spec (size out) 0).
  - intros H. injection H as <-. split; [done|]. split; [done|]. split; [done|].
    intros dirs'. by destruct (Nat.eqb_spec (size splits) 0).
Qed.

End SplitDataFacts.

Lemma split_data_outcome_witness :
  let load := fun split : option string => Py.Return (default "all" split) in
  exists out,
    CustomData.split_data string load ["train"; "test"] ∅ = Py.Return out /\
    dom out = ({[ Some "train"; Some "test" ]} : gset (option string)) /\
    CustomData.split_data string load [] out = Py.Return out.
Proof.
  intros load.
  destruct (CustomData.split_data string load ["train"; "test"] ∅) as [out|e] eqn:Hrun.
  - destruct (split_data_outcome string load ["train"; "test"] ∅ out Hrun)
      as (_ & Hdom & _ & Hagain).
    exists out. split; [reflexivity|]. split; [|apply Hagain].
    rewrite (Hdom (map_size_empty (M := gmap (option string)))). cbn.
    by rewrite union_empty_r_L.
  - vm_compute in Hrun. discriminate Hrun.
Defined.

(** ** Data cards *)

Section DataCardFacts.
Import Py PyVal Frames Formatter DataCards.

Lemma convert_split_facts (split : gmap string split_value) :
  (forall a, convert_split split !! "indices" <> Some (NdArray a)) /\
  (forall key, key <> "indices" -> convert_split split !! key = split !! key) /\
  (forall a, split !! "indices" = Some (NdArray a) ->
             convert_split split !! "indices" = Some (Plain (VList (map VInt a)))) /\
  convert_split (convert_split split) = convert_split split.
Proof.
  unfold convert_split.
  destruct (split !! "indices") as [v|] eqn:Hidx.
  - destruct v as [a|v];
      [|cbn beta iota; rewrite ?Hidx; cbn beta iota; repeat split; congruence].
    cbn beta iota. rewrite !lookup_insert_eq. unfold tolist. cbn beta iota.
    split; [|split; [|split]].
    + congruence.
    + intros key Hkey. by rewrite lookup_insert_ne.
    + intros a' H. by injection H as <-.
    + reflexivity.
  - cbn beta iota. rewrite ?Hidx. cbn beta iota. repeat split; congruence.
Qed.

(** X23: [convert_none] turns missing splits into the empty list; on a
    list of splits it keeps their number and order, replaces an array
    under "indices" by the list of its entries and changes nothing else,
    so that no split of the result holds an array under "indices"; and
    converting the result again changes nothing. *)
Theorem convert_none_outcome :
  convert_none None = [] /\
  forall splits : list (gmap string split_value),
    let out := convert_none (Some splits) in
    length out = length splits /\
    (forall i split, splits !! i = Some split ->
       exists split',
         out !! i = Some split' /\
         (forall a, split' !! "indices" <> Some (NdArray a)) /\
         (forall key, key <> "indices" -> split' !! key = split !! key) /\
         (forall a, split !! "indices" = Some (NdArray a) ->
                    split' !! "indices" = Some (Plain (VList (map VInt a))))) /\
    convert_none (Some out) = out.
Proof.
  split; [reflexivity|]. intros splits out. unfold out, convert_none.
  split; [apply length_map|]. split.
  - intros i split Hi. exists (convert_split split). split.
    + change (map convert_split splits) with (convert_split <$> splits).
      by rewrite list_lookup_fmap, Hi.
    + destruct (convert_split_facts split) as (H1 & H2 & H3 & _). by repeat split.
  - rewrite map_map. apply map_ext. intros split.
    apply (convert_split_facts split).
Qed.

Variable from_pandas : data -> bool -> result ArrowTbl.
Variable save_record_data_to_storage :
  artifact -> string -> Z -> string -> string -> result string.


End DataCardFacts.


(** ** More on the routes *)

Section UploadMoreFacts.
Import Py PyStr Pathlib Routes.
Context `{E : UploadEnv}.

Lemma loop_body_read (st : upload_state) (c : chunk) :
  chunks_read (fst (loop_body st c)) = S (chunks_read st).
Proof.
  unfold loop_body. destruct (MaxBodySizeValidator _ _ _); [|reflexivity].
  destruct (data_received (parser_st st) c) as [evs r].
  destruct (deliver_all (file_ st) evs) as [t [e|]]; [reflexivity|].
  by destruct r.
Qed.

Lemma stream_loop_read (cs : list chunk) (st : upload_state) :
  (chunks_read (fst (stream_loop st cs)) <= chunks_read st + length cs)%nat.
Proof.
  revert st. induction cs as [|c cs IH]; intros st; cbn [stream_loop length fst].
  - lia.
  - pose proof (loop_body_read st c) as Hread.
    destruct (loop_body st c) as [st' [e|]]; cbn [fst] in *; [lia|].
    specialize (IH st'). lia.
Qed.

Lemma with_store_so_far (t : ExternalFileTarget) (r : result storage) :
  so_far (fst (with_store t r)) = so_far t.
Proof. by destruct r. Qed.

Lemma deliver_all_bound (evs : list (part_event chunk)) (t : ExternalFileTarget) :
  (so_far t <= MAX_FILE_SIZE)%Z ->
  (so_far (fst (deliver_all t evs)) <= MAX_FILE_SIZE)%Z.
Proof.
  revert t. induction evs as [|ev evs IH]; intros t Ht; cbn [deliver_all fst]; [done|].
  assert (Hstep : (so_far (fst (deliver t ev)) <= MAX_FILE_SIZE)%Z).
  { destruct ev as [fn|d|]; cbn [deliver].
    - by rewrite with_store_so_far.
    - unfold MaxSizeValidator.
      destruct (Z.ltb_spec MAX_FILE_SIZE (so_far t + len d)); [done|].
      by rewrite with_store_so_far.
    - by rewrite with_store_so_far. }
  destruct (deliver t ev) as [t' [e|]]; cbn [fst] in *; [done | by apply IH].
Qed.

Lemma loop_body_bounds (st : upload_state) (c : chunk) :
  (body_len st <= MAX_REQUEST_BODY_SIZE)%Z ->
  (so_far (file_ st) <= MAX_FILE_SIZE)%Z ->
  (body_len (fst (loop_body st c)) <= MAX_REQUEST_BODY_SIZE)%Z /\
  (so_far (file_ (fst (loop_body st c))) <= MAX_FILE_SIZE)%Z.
Proof.
  intros Hb Hf. unfold loop_body, MaxBodySizeValidator.
  destruct (Z.ltb_spec MAX_REQUEST_BODY_SIZE (body_len st + len c)); [done|].
  destruct (data_received (parser_st st) c) as [evs r].
  pose proof (deliver_all_bound evs (file_ st) Hf) as Ht.
  destruct (deliver_all (file_ st) evs) as [t [e|]]; cbn [fst] in *; [done|].
  by destruct r.
Qed.

(** Whatever the parser and the storage client do and whatever the
    chunks are, the handler never counts more body bytes than the body
    bound allows and never passes more file bytes through its validator
    than the file bound allows: both totals stay within their bounds in
    the state the loop ends in, also when it ends in an error. *)
Theorem upload_totals_bounded (filename write_path : string) (p0 : parser)
    (store0 : storage) (cs : list chunk) :
  let st := fst (stream_loop
                   (mkState 0 p0 (mkTarget filename write_path None 0 store0) 0) cs) in
  (body_len st <= MAX_REQUEST_BODY_SIZE)%Z /\
  (so_far (file_ st) <= MAX_FILE_SIZE)%Z /\
  (chunks_read st <= length cs)%nat.
Proof.
  intros st.
  assert (Hinv : forall cs st0,
             (body_len st0 <= MAX_REQUEST_BODY_SIZE)%Z ->
             (so_far (file_ st0) <= MAX_FILE_SIZE)%Z ->
             (body_len (fst (stream_loop st0 cs)) <= MAX_REQUEST_BODY_SIZE)%Z /\
             (so_far (file_ (fst (stream_loop st0 cs))) <= MAX_FILE_SIZE)%Z).
  { clear. induction cs as [|c cs IH]; intros st0 Hb Hf; cbn [stream_loop fst]; [done|].
    pose proof (loop_body_bounds st0 c Hb Hf) as [Hb' Hf'].
    destruct (loop_body st0 c) as [st' [e|]]; cbn [fst] in *; [done | by apply IH]. }
  destruct (Hinv cs (mkState 0 p0 (mkTarget filename write_path None 0 store0) 0))
    as [Hb Hf]; [done..|].
  split; [exact Hb|]. split; [exact Hf|].
  apply (stream_loop_read cs (mkState 0 p0 _ 0)).
Qed.

(** X25: the upload route answers with one of the statuses 200, 413, 422
    and 500 and nothing else; it never reads more chunks than the stream
    holds; and when it answers with a body, both headers were present and
    the body is the storage uri joined from the write path and the file
    name. *)
Theorem upload_answers (request : Request) (store0 : storage) :
  let answer := fst (upload_run request store0) in
  (status_of answer = 200%Z \/ status_of answer = 413%Z \/
   status_of answer = 422%Z \/ status_of answer = 500%Z) /\
  (snd (upload_run request store0) <= length (stream request))%nat /\
  (forall body, answer = Respond body ->
     exists filename write_path,
       headers_get (headers request) "Filename" = Some filename /\
       headers_get (headers request) "WritePath" = Some write_path /\
       body = {[ "storage_uri" := os_path_join write_path filename ]}).
Proof.
  unfold upload_run.
  destruct (headers_get (headers request) "Filename") as [filename|];
    [|cbn; split; [auto|]; split; [lia | discriminate]].
  destruct (headers_get (headers request) "WritePath") as [write_path|];
    [|cbn; split; [auto|]; split; [lia | discriminate]].
  destruct (new_parser (headers request)) as [p0|];
    [|cbn; split; [auto|]; split; [lia | discriminate]].
  pose proof (stream_loop_read (stream request)
                (mkState 0 p0 (mkTarget filename write_path None 0 store0) 0)) as Hread.
  unfold consume.
  destruct (stream_loop _ (stream request)) as [st [e|]]; cbn [fst snd chunks_read] in *.
  - destruct e; cbn [fst snd]; unfold finish_upload;
      try (split; [cbn; auto|]; split; [exact Hread | discriminate]).
    destruct (truthy (multipart_filename (file_ st))); cbn;
      (split; [auto|]); (split; [exact Hread|]); [|discriminate].
    intros body H. injection H as <-. eauto.
  - assert (Hfinish :
      let answer := finish_upload write_path filename (file_ st) in
      (status_of answer = 200%Z \/ status_of answer = 413%Z \/
       status_of answer = 422%Z \/ status_of answer = 500%Z) /\
      forall body, answer = Respond body ->
        exists filename0 write_path0,
          Some filename = Some filename0 /\ Some write_path = Some write_path0 /\
          body = {[ "storage_uri" := os_path_join write_path0 filename0 ]}).
    { unfold finish_upload.
      destruct (truthy (multipart_filename (file_ st))); cbn;
        (split; [auto|]); [|discriminate].
      intros body H. injection H as <-. eauto. }
    destruct Hfinish as [Hstatus Hbody].
    destruct (stream_ending request); cbn [fst snd]; by repeat split.
Qed.

End UploadMoreFacts.

Lemma upload_totals_bounded_witness :
  let st := fst (Routes.stream_loop
                   (@Routes.mkState Samples.sized_env 0 tt
                      (@Routes.mkTarget Samples.sized_env
                         "model.onnx" "models/v1" None 0 0%Z) 0)
                   (Routes.stream (Samples.upload_of 53687091201 Routes.EndOfStream))) in
  (Routes.so_far (Routes.file_ st) <= Routes.MAX_FILE_SIZE)%Z /\
  Routes.so_far (Routes.file_ st) = 0%Z.
Proof.
  intros st. split.
  - apply (upload_totals_bounded (E := Samples.sized_env)
             "model.onnx" "models/v1" tt 0%Z
             (Routes.stream (Samples.upload_of 53687091201 Routes.EndOfStream))).
  - vm_compute. reflexivity.
Defined.

Section DownloadMoreFacts.
Import Py Routes.

Variable chunk : Type.
Variable MODEL_FILE : string.
Variable list_cards : DownloadModelRequest -> list (gmap string string).
Variable iterfile : option string -> Z -> result (list chunk).

(** X26: [download_model] answers with a stream exactly when the registry
    finds one single card and the storage client opens the file under the
    card's "onnx_model_uri"; the stream is then the one of the storage
    client read in chunks of [CHUNK_SIZE], sent as an attachment named
    after [MODEL_FILE]. *)
Theorem download_model_succeeds_iff (payload : DownloadModelRequest)
    (answer : StreamingResponse chunk) :
  download_model chunk MODEL_FILE list_cards iterfile payload = Respond answer <->
  exists card it,
    list_cards payload = [card] /\
    iterfile (card !! "onnx_model_uri") CHUNK_SIZE = Return it /\
    answer = mkStreamingResponse it
               [("Content-Disposition",
                 "attachment; filename=" +:+ dquote +:+ MODEL_FILE +:+ dquote)].
Proof.
  unfold download_model. split.
  - destruct (list_cards payload) as [|card [|card' cards]]; cbn; try discriminate.
    destruct (iterfile (card !! "onnx_model_uri") CHUNK_SIZE) as [it|] eqn:Hit;
      [|discriminate].
    intros H. injection H as <-. by exists card, it.
  - intros (card & it & -> & Hit & ->). cbn. by rewrite Hit.
Qed.

End DownloadMoreFacts.

Lemma download_model_succeeds_iff_witness :
  let card : gmap string string := {[ "onnx_model_uri" := "models/v1/model.onnx" ]} in
  Routes.download_model nat "model_def.json" (fun _ => [card])
    (fun uri size => Py.Return [1%nat; 2%nat]) Samples.any_model
  = Routes.Respond
      (Routes.mkStreamingResponse [1%nat; 2%nat]
         [("Content-Disposition",
           "attachment; filename=" +:+ Routes.dquote +:+ "model_def.json"
           +:+ Routes.dquote)]).
Proof.
  intros card.
  apply (proj2 (download_model_succeeds_iff nat "model_def.json" (fun _ => [card])
                  (fun uri size => Py.Return [1%nat; 2%nat]) Samples.any_model _)).
  exists card, [1%nat; 2%nat]. by repeat split.
Defined.

Section DispatcherMoreFacts.
Import Py DataTypes.

Lemma first_match_some cs (data : object) t :
  first_match cs data = Some t -> t ∈ map snd cs.
Proof.
  induction cs as [|[p u] cs IH]; cbn; [discriminate|].
  destruct (p data).
  - intros H. injection H as <-. apply list_elem_of_here.
  - intros H. apply list_elem_of_further, IH, H.
Qed.

Lemma first_match_none cs (data : object) :
  first_match cs data = None -> forall c, In c cs -> fst c data = false.
Proof.
  induction cs as [|[p u] cs IH]; cbn; [by intros _ c []|].
  destruct (p data) eqn:Hp; [discriminate|].
  intros H c [<-|Hc]; [exact Hp | by apply IH].
Qed.

(** X27: [check_data_type] returns a tag exactly for the objects that some
    classifier accepts, and raises for all others; a tag it returns is the
    value of one of the ten types it tests for, so it never answers "sql"
    or "profile". *)
Theorem check_data_type_tags (data : object) :
  ((exists tag, check_data_type data = Return tag) <-> ~ unmatched data) /\
  (forall tag,
      check_data_type data = Return tag ->
      (exists t, t ∈ map snd classifiers /\ tag = value t) /\
      tag <> value SQL /\ tag <> value PROFILE).
Proof.
  rewrite check_data_type_first_match. split.
  - split.
    + intros [tag H] Hun.
      rewrite (first_match_unmatched classifiers data Hun) in H. discriminate.
    + intros Hun. destruct (first_match classifiers data) as [t|] eqn:Hm;
        [cbn; eauto|].
      destruct Hun. exact (first_match_none _ _ Hm).
  - intros tag. destruct (first_match classifiers data) as [t|] eqn:Hm;
      cbn [dispatch]; [|discriminate].
    intros H. injection H as <-. apply first_match_some in Hm.
    split; [eauto|].
    cbn in Hm. repeat (apply elem_of_cons in Hm as [->|Hm]; [by split|]).
    by apply elem_of_nil in Hm.
Qed.

End DispatcherMoreFacts.

(** ** Further sample runs *)


Lemma convert_none_outcome_witness :
  let split : gmap string DataCards.split_value :=
    {[ "label" := DataCards.Plain (PyVal.VStr "train");
       "indices" := DataCards.NdArray [0%Z; 2%Z] ]} in
  exists split',
    DataCards.convert_none (Some [split]) !! 0%nat = Some split' /\
    split' !! "indices"
    = Some (DataCards.Plain (PyVal.VList [PyVal.VInt 0; PyVal.VInt 2])) /\
    split' !! "label" = Some (DataCards.Plain (PyVal.VStr "train")).
Proof.
  intros split.
  destruct (proj2 convert_none_outcome [split]) as (_ & Hsplit & _).
  destruct (Hsplit 0%nat split eq_refl) as (split' & Hout & _ & Hkeep & Harray).
  exists split'. split; [exact Hout|]. split.
  - apply (Harray [0%Z; 2%Z]). vm_compute. reflexivity.
  - rewrite (Hkeep "label") by discriminate. vm_compute. reflexivity.
Defined.

Lemma upload_answers_witness :
  let request := Samples.upload_of 1000 Routes.EndOfStream in
  exists filename write_path,
    Routes.headers_get (Routes.headers request) "Filename" = Some filename /\
    Routes.headers_get (Routes.headers request) "WritePath" = Some write_path /\
    fst (Routes.upload_run request 0%Z)
    = Routes.Respond {[ "storage_uri" := Pathlib.os_path_join write_path filename ]}.
Proof.
  intros request.
  destruct (upload_answers (E := Samples.sized_env) request 0%Z) as (_ & _ & Hbody).
  destruct (Routes.upload_run request 0%Z) as [[body|e] read] eqn:Hrun.
  - destruct (Hbody body eq_refl) as (filename & write_path & Hf & Hw & ->).
    exists filename, write_path. by repeat split.
  - vm_compute in Hrun. discriminate Hrun.
Defined.

Lemma check_data_type_tags_witness :
  ~ (exists tag, DataTypes.check_data_type Samples.an_int = Py.Return tag) /\
  DataTypes.check_data_type Samples.dict_and_ndarray = Py.Return "dict" /\
  "dict" <> DataTypes.value DataTypes.SQL.
Proof.
  split; [|split].
  - intros H.
    apply (proj1 (proj1 (check_data_type_tags Samples.an_int))) in H.
    apply H, an_int_unmatched.
  - reflexivity.
  - apply (proj2 (check_data_type_tags Samples.dict_and_ndarray) "dict" eq_refl).
Defined.

Lemma get_storage_settings_type_witness :
  let config := Settings.mkConfig (Some "gs://bucket/opsml") true "1.0" in
  Settings.storage_type (Settings.get_storage_settings config) = Settings.API.
Proof.
  intros config.
  apply (proj1 (get_storage_settings_type config)). by split.
Defined.

Lemma get_storage_settings_versions_agree_witness :
  let config := Settings.mkConfig (Some "gs://bucket/opsml") false "1.0" in
  Settings.storage_type (Settings.get_storage_settings config) = Settings.GCS /\
  Settings.storage_type (Settings.settings_get_storage_settings config) = Settings.GCS.
Proof.
  intros config.
  destruct (get_storage_settings_versions_agree config) as (Htype & _ & _ & Hproxy).
  assert (H : Settings.storage_type (Settings.get_storage_settings config)
              = Settings.GCS) by (apply Hproxy; reflexivity).
  split; [exact H | by rewrite <- Htype].
Defined.

